(** * sponge: the [generate model], [micro rpc] and [patch gen-db-init] commands

    A shallow embedding of
      - cmd/sponge/commands/generate/model.go
      - cmd/sponge/commands/generate/rpc.go
      - cmd/sponge/commands/patch/gen-db-init.go
    The commands run in a small state-and-error monad over an environment
    (file system, persisted generation records, the shared template
    replacer) and a log of the calls they make to their collaborators. *)

From Stdlib Require Import ZArith Lia Ascii String DecimalString DecimalPos.
From stdpp Require Import base option list strings gmap.

Local Open Scope string_scope.
Local Open Scope list_scope.

(** ** Go strings *)

Module GoStrings.

(** The characters that cannot be written inside a string literal here. *)
Definition nl : string := String (ascii_of_nat 10) EmptyString.
Definition dq : string := String (ascii_of_nat 34) EmptyString.
Definition backslash : string := String (ascii_of_nat 92) EmptyString.

Definition isUpperByte (c : ascii) : bool :=
  (65 <=? nat_of_ascii c)%nat && (nat_of_ascii c <=? 90)%nat.

(** [c += 'a' - 'A'] on an upper-case ASCII byte. *)
Definition lowerByte (c : ascii) : ascii :=
  if isUpperByte c then ascii_of_nat (nat_of_ascii c + 32) else c.

Fixpoint mapBytes (f : ascii -> ascii) (s : string) : string :=
  match s with
  | EmptyString => EmptyString
  | String c s' => String (f c) (mapBytes f s')
  end.

(** [c < utf8.RuneSelf] for every byte of [s]. *)
Fixpoint isASCII (s : string) : bool :=
  match s with
  | EmptyString => true
  | String c s' => (nat_of_ascii c <? 128)%nat && isASCII s'
  end.

(** [strings.ToLower]: the ASCII fast path is computed; on a string with a
    byte above 127 Go maps [unicode.ToLower] over the decoded runes, which
    is left to [unicodeLower]. *)
Definition ToLower (unicodeLower : string -> string) (s : string) : string :=
  if isASCII s then mapBytes lowerByte s else unicodeLower s.

(** [strings.Split(s, ",")]: never empty; the empty string gives one empty
    entry. *)
Fixpoint SplitComma (s : string) : list string :=
  match s with
  | EmptyString => [EmptyString]
  | String c s' =>
      if Ascii.eqb c ","%char then EmptyString :: SplitComma s'
      else match SplitComma s' with
           | hd :: tl => String c hd :: tl
           | [] => [String c EmptyString]
           end
  end.

(** Left-to-right replacement of the non-overlapping occurrences of [old],
    where [isPrefix old s] says that an occurrence starts [s]. [skip]
    counts the bytes of the occurrence still to be dropped. An empty [old]
    occurs nowhere in this model (Go inserts [new] around every UTF-8
    sequence then; no caller here passes an empty [old]). *)
Fixpoint replaceFrom (isPrefix : string -> string -> bool)
         (old new : string) (skip : nat) (s : string) : string :=
  match s with
  | EmptyString => EmptyString
  | String c s' =>
      match skip with
      | S k => replaceFrom isPrefix old new k s'
      | O =>
          if isPrefix old s
          then new +:+ replaceFrom isPrefix old new (String.length old - 1) s'
          else String c (replaceFrom isPrefix old new 0 s')
      end
  end.

Definition nonEmpty (s : string) : bool :=
  match s with EmptyString => false | _ => true end.

(** [strings.ReplaceAll(s, old, new)] for a non-empty [old]. *)
Definition ReplaceAll (s old new : string) : string :=
  if nonEmpty old then replaceFrom String.prefix old new 0 s else s.

(** [fmt.Sprintf("%d", n)]. *)
Definition formatInt (n : Z) : string :=
  match n with
  | Z0 => "0"
  | Zpos p => NilEmpty.string_of_uint (Pos.to_uint p)
  | Zneg p => "-" +:+ NilEmpty.string_of_uint (Pos.to_uint p)
  end.

(** [s] has [t] as a substring. *)
Fixpoint contains (s t : string) : bool :=
  String.prefix t s ||
  match s with
  | EmptyString => false
  | String _ s' => contains s' t
  end.

End GoStrings.
Export GoStrings.


(** ** Data *)

(** Go's [(T, error)] results; an error is kept as its message. *)
Inductive Res (A : Type) : Type :=
| Ok (a : A)
| Err (e : string).
Arguments Ok {A} a.
Arguments Err {A} e.

(** [sql2code.Args], with the fields the commands set. *)
Record Args := mkArgs {
  Package : string;
  JSONTag : bool;
  GormType : bool;
  DBDriver : string;
  DBDsn : string;
  DBTable : string;
  IsEmbed : bool;
  JSONNamedType : Z
}.

Definition setIsEmbed (b : bool) (a : Args) : Args :=
  mkArgs (Package a) (JSONTag a) (GormType a) (DBDriver a) (DBDsn a)
         (DBTable a) b (JSONNamedType a).
Definition setDBTable (t : string) (a : Args) : Args :=
  mkArgs (Package a) (JSONTag a) (GormType a) (DBDriver a) (DBDsn a)
         t (IsEmbed a) (JSONNamedType a).

(** [replacer.Field]. *)
Record Field := mkField {
  Old : string;
  New : string;
  IsCaseSensitive : bool
}.

(** A field written without [IsCaseSensitive] has Go's zero value there. *)
Definition field (old new : string) : Field := mkField old new false.

(** The state of a [replacer.Replacer]: its template source path and what
    the setters have stored. *)
Record Replacer := mkReplacer {
  sourcePath : string;
  subDirs : list string;
  subFiles : list string;
  ignoreDirs : list string;
  ignoreFiles : list string;
  replacementFields : list Field;
  outputDir : string
}.

(** The Generation-Info Record of the spec. *)
Record GenInfo := mkGenInfo {
  infoModuleName : string;
  infoServerName : string;
  infoTemplateVersion : string
}.

(** What the commands act on: the file system (path to content, paths as the
    process gives them), the generation records persisted per output
    directory, the generation timestamp, the state of math/rand's global
    source and the package-level [Replacers] map. *)
Record Env := mkEnv {
  files : gmap string string;
  genInfos : gmap string GenInfo;
  timestamp : string;
  randState : Z;
  Replacers : gmap string Replacer
}.

(** [serviceGenerator] (its [generateCode] lives in service.go). *)
Module serviceGenerator.
Record t := mk {
  moduleName : string;
  serverName : string;
  dbDriver : string;
  isEmbed : bool;
  codes : gmap string string;
  outPath : string
}.
End serviceGenerator.

(** The calls a command makes to its collaborators, with their results. *)
Inductive Event :=
| EvGenerate (a : Args) (res : Res (gmap string string))
| EvSaveFiles (r : Replacer) (err : option string)
| EvServicePass (sg : serviceGenerator.t) (res : Res string)
| EvConfigmap (serverName outPath : string)
| EvPrint (msg : string).

Record State := mkState {
  env : Env;
  log : list Event
}.

(** Modelled from the spec: the driver constants [DBDriverMysql],
    [DBDriverPostgresql], [DBDriverTidb], [DBDriverSqlite] and
    [DBDriverMongodb] are declared outside these files; the spec and the
    flag help name the drivers mysql, mongodb, postgresql, tidb, sqlite. *)
Definition DBDriverMysql : string := "mysql".
Definition DBDriverPostgresql : string := "postgresql".
Definition DBDriverTidb : string := "tidb".
Definition DBDriverSqlite : string := "sqlite".
Definition DBDriverMongodb : string := "mongodb".

(** ** What the three files take from the rest of the repository *)

(** The template constants and helper functions that common.go, template.go
    and the [parser], [gofile] and [xstrings] packages declare. They are
    parameters of the commands: no result below depends on their values. *)
Class Template := {
  TplNameSponge : string;
  selfPackageName : string;
  (* template file names *)
  modelFile : string; modelInitDBFile : string; daoFile : string;
  daoMgoFile : string; daoTestFile : string; protoFile : string;
  serviceLogicFile : string; serviceClientFile : string;
  serviceClientMgoFile : string; serviceTestFile : string;
  dockerFile : string; dockerFileBuild : string; dockerComposeFile : string;
  k8sDeploymentFile : string; k8sServiceFile : string;
  imageBuildFile : string; imageBuildLocalFile : string; makeFile : string;
  gitIgnoreFile : string; protoShellFile : string; appConfigFile : string;
  readmeFile : string;
  (* block markers *)
  startMark : string; endMark : string;
  wellStartMark : string; wellEndMark : string;
  (* insertion markers and the fixed fragments that replace them *)
  appConfigFileMark : string; rpcServerConfigCode : string;
  appConfigFileMark2 : string;
  modelFileMark : string; modelInitDBFileMark : string; daoFileMark : string;
  embedTimeMark : string; protoFileMark : string;
  protoShellFileGRPCMark : string; protoShellGRPCMark : string;
  protoShellFileMark : string; protoShellServiceTmplCode : string;
  serviceFileMark : string;
  dockerFileMark : string; dockerFileGrpcCode : string;
  dockerFileBuildMark : string; dockerFileBuildGrpcCode : string;
  imageBuildFileMark : string; imageBuildFileGrpcCode : string;
  imageBuildLocalFileMark : string; imageBuildLocalFileGrpcCode : string;
  dockerComposeFileMark : string; dockerComposeFileGrpcCode : string;
  k8sDeploymentFileMark : string; k8sDeploymentFileGrpcCode : string;
  k8sServiceFileMark : string; k8sServiceFileGrpcCode : string;
  spongeTemplateVersionMark : string;
  (* keys of the generated code map *)
  CodeTypeModel : string; CodeTypeDAO : string; CodeTypeProto : string;
  CodeTypeService : string; TableName : string;
  (* helpers *)
  deleteFieldsMark : Replacer -> string -> string -> string -> list Field;
  deleteAllFieldsMark : Replacer -> string -> string -> string -> list Field;
  replaceFileContentMark : Replacer -> string -> string -> list Field;
  getDBConfigCode : string -> string;
  getInitDBCode : string -> string;
  getEmbedTimeCode : bool -> string;
  adjustmentOfIDType : string -> string -> string;
  getLocalSpongeTemplateVersion : string;
  parseImageRepoAddr : string -> string * string;
  sqliteDSNAdaptation : string -> string -> string;
  convertProjectAndServerName : string -> string -> string * string;
  ToKebabCase : string -> string;
  GetPathDelimiter : string;
  IsWindows : bool;
  unicodeLower : string -> string;
  (* the exported names the patch package uses *)
  DeleteCodeMark : Replacer -> string -> string -> string -> list Field;
  ModelInitDBFile : string; StartMark : string; EndMark : string;
  ModelInitDBFileMark : string;
  GetInitDataBaseCode : string -> string
}.

(** The collaborators that act on the environment. [Generate] receives a
    pointer to the arguments, so it also returns them as it leaves them. *)
Class Collaborators := {
  Generate : Args -> Env -> Args * Env * Res (gmap string string);
  SaveFiles : Replacer -> Env -> Env * option string;
  serviceGenerateCode : serviceGenerator.t -> Env -> Env * Res string;
  generateConfigmap : string -> string -> Env -> Env;
  (* math/rand: [Intn n] is in the half-open interval [0,n) *)
  Intn : Z -> Env -> Z * Env;
  Intn_range : forall n e, (0 < n)%Z -> (0 <= fst (Intn n e) < n)%Z
}.

(** ** The monad of the commands *)

Definition M (A : Type) : Type := State -> State * Res A.

Definition ret {A} (a : A) : M A := fun st => (st, Ok a).
Definition fail {A} (e : string) : M A := fun st => (st, Err e).
Definition bind {A B} (m : M A) (k : A -> M B) : M B :=
  fun st => match m st with
            | (st', Ok a) => k a st'
            | (st', Err e) => (st', Err e)
            end.

Notation "'let!' x ':=' m 'in' k" := (bind m (fun x => k))
  (at level 10, x name, m at level 100, k at level 200).
Notation "'let!' ' p ':=' m 'in' k" := (bind m (fun x => let 'p := x in k))
  (at level 10, p pattern, m at level 100, k at level 200).
Notation "m ';;' k" := (bind m (fun _ => k))
  (at level 100, k at level 200, right associativity).

Definition emit (ev : Event) : M unit :=
  fun st => (mkState (env st) (log st ++ [ev]), Ok tt).
Definition getEnv : M Env := fun st => (st, Ok (env st)).
Definition putEnv (e : Env) : M unit := fun st => (mkState e (log st), Ok tt).

(** [fmt.Printf]. *)
Definition Printf (msg : string) : M unit := emit (EvPrint msg).

(** [map[string]string] indexing: a missing key reads as the empty string. *)
Definition index (codes : gmap string string) (k : string) : string :=
  default EmptyString (codes !! k).

(** ** The replacer's setters and the helpers of common.go *)

Module replacer.

(** Modelled from the spec: the setters of [replacer.Replacer] are missing;
    each stores the Generation Scope list or the Substitution Field list it
    is given. *)
Definition SetSubDirsAndFiles (r : Replacer) (dirs files : list string) : Replacer :=
  mkReplacer (sourcePath r) dirs files (ignoreDirs r) (ignoreFiles r)
             (replacementFields r) (outputDir r).
Definition SetIgnoreSubDirs (r : Replacer) (dirs : list string) : Replacer :=
  mkReplacer (sourcePath r) (subDirs r) (subFiles r) dirs (ignoreFiles r)
             (replacementFields r) (outputDir r).
Definition SetIgnoreSubFiles (r : Replacer) (fs : list string) : Replacer :=
  mkReplacer (sourcePath r) (subDirs r) (subFiles r) (ignoreDirs r) fs
             (replacementFields r) (outputDir r).
Definition SetReplacementFields (r : Replacer) (fields : list Field) : Replacer :=
  mkReplacer (sourcePath r) (subDirs r) (subFiles r) (ignoreDirs r)
             (ignoreFiles r) fields (outputDir r).

(** Modelled from the spec: [SetOutputDir] is missing. An empty output path
    gives the default [<kindPrefix>_<generationTimestamp>]; a given one is
    reused. *)
Definition SetOutputDir (r : Replacer) (now absPath name : string) : Replacer :=
  mkReplacer (sourcePath r) (subDirs r) (subFiles r) (ignoreDirs r)
             (ignoreFiles r) (replacementFields r)
             (if nonEmpty absPath then absPath else name +:+ "_" +:+ now).

Definition GetOutputDir (r : Replacer) : string := outputDir r.
Definition GetSourcePath (r : Replacer) : string := sourcePath r.

End replacer.

(** Modelled from the spec: [gofile.IsExists] is missing; a path exists when
    the file system holds it. *)
Definition IsExists (e : Env) (path : string) : bool :=
  bool_decide (is_Some (files e !! path)).

(** Modelled from the spec: [saveGenInfo] is missing. It writes the
    Generation-Info Record [{moduleName, serverName, templateVersion}] into
    the output tree. *)
Definition saveGenInfo `{Template} (moduleName serverName outputDir : string)
  (e : Env) : Env :=
  mkEnv (files e)
        (<[outputDir := mkGenInfo moduleName serverName getLocalSpongeTemplateVersion]>
           (genInfos e))
        (timestamp e) (randState e) (Replacers e).

(** Modelled from the spec: [getNamesFromOutDir] is missing. It reads the
    record back from the directory; without a record both names are empty. *)
Definition getNamesFromOutDir (e : Env) (dir : string) : string * string :=
  match genInfos e !! dir with
  | Some gi => (infoModuleName gi, infoServerName gi)
  | None => (EmptyString, EmptyString)
  end.

Section Passes.
Context `{T : Template} `{C : Collaborators}.

(** [r := Replacers[TplNameSponge]; if r == nil { return errors.New(...) }] *)
Definition lookupReplacer : M Replacer :=
  fun st => match Replacers (env st) !! TplNameSponge with
            | Some r => (st, Ok r)
            | None => (st, Err "replacer is nil")
            end.

(** The setters act on the shared replacer object: its new state is stored
    back in the [Replacers] map. *)
Definition storeReplacer (r : Replacer) : M unit :=
  fun st => (mkState (mkEnv (files (env st)) (genInfos (env st))
                            (timestamp (env st)) (randState (env st))
                            (<[TplNameSponge := r]> (Replacers (env st))))
                     (log st), Ok tt).

(** [if err := r.SaveFiles(); err != nil { return err }] *)
Definition callSaveFiles (r : Replacer) : M unit :=
  fun st => match SaveFiles r (env st) with
            | (e', None) => (mkState e' (log st ++ [EvSaveFiles r None]), Ok tt)
            | (e', Some err) =>
                (mkState e' (log st ++ [EvSaveFiles r (Some err)]), Err err)
            end.

(** [codes, err := sql2code.Generate(&sqlArgs)]: the arguments as the
    callee leaves them come back with the codes. *)
Definition callGenerate (a : Args) : M (Args * gmap string string) :=
  fun st => match Generate a (env st) with
            | (a', e', Ok codes) =>
                (mkState e' (log st ++ [EvGenerate a (Ok codes)]), Ok (a', codes))
            | (a', e', Err err) =>
                (mkState e' (log st ++ [EvGenerate a (Err err)]), Err err)
            end.

(** [sg.generateCode()] of service.go. *)
Definition callServicePass (sg : serviceGenerator.t) : M string :=
  fun st => match serviceGenerateCode sg (env st) with
            | (e', res) =>
                (mkState e' (log st ++ [EvServicePass sg res]), res)
            end.

Definition callConfigmap (serverName outPath : string) : M unit :=
  fun st => (mkState (generateConfigmap serverName outPath (env st))
                     (log st ++ [EvConfigmap serverName outPath]), Ok tt).

(** [rand.Intn(n)]. *)
Definition callIntn (n : Z) : M Z :=
  fun st => match Intn n (env st) with
            | (v, e') => (mkState e' (log st), Ok v)
            end.

(** [_ = saveGenInfo(...)]. *)
Definition callSaveGenInfo (moduleName serverName outputDir : string) : M unit :=
  fun st => (mkState (saveGenInfo moduleName serverName outputDir (env st))
                     (log st), Ok tt).

End Passes.

(** ** model.go *)

Module modelGenerator.
Record t := mk {
  codes : gmap string string;
  outPath : string
}.

Section Code.
Context `{T : Template} `{C : Collaborators}.

Definition addFields (g : t) (r : Replacer) : list Field :=
  deleteFieldsMark r modelFile startMark endMark
  ++ [ field modelFileMark (index (codes g) CodeTypeModel);
       mkField "UserExample" (index (codes g) TableName) true ].

Definition generateCode (g : t) : M string :=
  let subTplName := "model" in
  let! r := lookupReplacer in
  let subDirs := ["internal/model"] in
  let ignoreDirs := [] in
  let ignoreFiles := ["init.go"; "init_test.go"; "init.go.mgo"] in
  let r := replacer.SetSubDirsAndFiles r subDirs [] in
  let r := replacer.SetIgnoreSubDirs r ignoreDirs in
  let r := replacer.SetIgnoreSubFiles r ignoreFiles in
  let fields := addFields g r in
  let r := replacer.SetReplacementFields r fields in
  let! e := getEnv in
  let r := replacer.SetOutputDir r (timestamp e) (outPath g) subTplName in
  storeReplacer r ;;
  callSaveFiles r ;;
  ret (replacer.GetOutputDir r).
End Code.
End modelGenerator.

Module ModelCommand.
(** The flag variables of the command; [Package], [JSONTag] and [GormType]
    of [sqlArgs] are fixed by the command. *)
Record flags := mkFlags {
  outPath : string;
  dbTables : string;
  dbDriver : string;
  dbDsn : string;
  embed : bool;
  jsonNameType : Z
}.

Definition sqlArgs (f : flags) : Args :=
  mkArgs "model" true true (dbDriver f) (dbDsn f) EmptyString (embed f)
         (jsonNameType f).

Section Code.
Context `{T : Template} `{C : Collaborators}.

(** The body of the loop for one non-empty [tableName]. *)
Definition tableBody (tableName : string) (sqlArgs : Args)
           (outPath : string) : M (Args * string) :=
  let sqlArgs :=
    if String.eqb (DBDriver sqlArgs) DBDriverMongodb
    then setIsEmbed false sqlArgs else sqlArgs in
  let sqlArgs := setDBTable tableName sqlArgs in
  let! ' (sqlArgs, codes) := callGenerate sqlArgs in
  let g := modelGenerator.mk codes outPath in
  let! outPath := modelGenerator.generateCode g in
  ret (sqlArgs, outPath).

(** [for _, tableName := range tableNames { ... }]; the loop assigns the
    variables [sqlArgs] and [outPath], whose final values it returns. *)
Fixpoint tableLoop (tableNames : list string) (sqlArgs : Args)
         (outPath : string) : M (Args * string) :=
  match tableNames with
  | [] => ret (sqlArgs, outPath)
  | tableName :: rest =>
      if negb (nonEmpty tableName) then tableLoop rest sqlArgs outPath
      else
        let! ' (sqlArgs, outPath) := tableBody tableName sqlArgs outPath in
        tableLoop rest sqlArgs outPath
  end.

Definition helpText : string :=
  nl +:+ "using help:" +:+ nl
  +:+ "  move the folder " +:+ dq +:+ "internal" +:+ dq
  +:+ " to your project code folder." +:+ nl +:+ nl.

Definition RunE (f : flags) : M unit :=
  let tableNames := SplitComma (dbTables f) in
  let! ' (_, outPath) := tableLoop tableNames (sqlArgs f) (outPath f) in
  Printf helpText ;;
  Printf ("generate " +:+ dq +:+ "model" +:+ dq
          +:+ " code successfully, out = " +:+ outPath +:+ nl).
End Code.
End ModelCommand.

(** ** rpc.go *)

Module rpcGenerator.
Record t := mk {
  moduleName : string;
  serverName : string;
  projectName : string;
  repoAddr : string;
  dbDSN : string;
  dbDriver : string;
  isEmbed : bool;
  codes : gmap string string;
  outPath : string
}.

(** The files ignored for the relational drivers and for mongodb. *)
Definition ignoreFilesSQL : list string :=
  [ "userExample_http.go"; "systemCode_http.go";
    "http.go"; "http_option.go"; "http_test.go";
    "scripts/swag-docs.sh";
    "types.pb.validate.go"; "types.pb.go";
    "userExample.pb.go"; "userExample.pb.validate.go";
    "userExample_grpc.pb.go"; "userExample_router.pb.go";
    "init_test.go"; "init.go.mgo";
    "doc.go"; "cacheNameExample.go"; "cacheNameExample_test.go";
    "cache/userExample.go.mgo";
    "dao/userExample.go.mgo";
    "userExample_logic.go"; "userExample_logic_test.go";
    "service/userExample_test.go"; "service/userExample.go.mgo";
    "service/userExample_client_test.go.mgo" ].

Definition ignoreFilesMongodb : list string :=
  [ "userExample_http.go"; "systemCode_http.go";
    "http.go"; "http_option.go"; "http_test.go";
    "scripts/swag-docs.sh";
    "types.pb.validate.go"; "types.pb.go";
    "userExample.pb.go"; "userExample.pb.validate.go";
    "userExample_grpc.pb.go"; "userExample_router.pb.go";
    "init_test.go"; "init.go";
    "doc.go"; "cacheNameExample.go"; "cacheNameExample_test.go";
    "cache/userExample.go"; "cache/userExample_test.go";
    "dao/userExample_test.go"; "dao/userExample.go";
    "userExample_logic.go"; "userExample_logic_test.go";
    "service/userExample_test.go"; "service/userExample.go";
    "service/userExample_client_test.go" ].

Section Code.
Context `{T : Template} `{C : Collaborators}.

(** The fields up to the rule that rewrites the module-path prefix. *)
Definition fieldsBefore (g : t) (r : Replacer) : list Field :=
  deleteFieldsMark r modelFile startMark endMark
  ++ deleteFieldsMark r modelInitDBFile startMark endMark
  ++ deleteFieldsMark r daoFile startMark endMark
  ++ deleteFieldsMark r daoMgoFile startMark endMark
  ++ deleteFieldsMark r daoTestFile startMark endMark
  ++ deleteFieldsMark r protoFile startMark endMark
  ++ deleteFieldsMark r serviceLogicFile startMark endMark
  ++ deleteFieldsMark r serviceClientFile startMark endMark
  ++ deleteFieldsMark r serviceClientMgoFile startMark endMark
  ++ deleteFieldsMark r serviceTestFile startMark endMark
  ++ deleteFieldsMark r dockerFile wellStartMark wellEndMark
  ++ deleteFieldsMark r dockerFileBuild wellStartMark wellEndMark
  ++ deleteFieldsMark r dockerComposeFile wellStartMark wellEndMark
  ++ deleteFieldsMark r k8sDeploymentFile wellStartMark wellEndMark
  ++ deleteFieldsMark r k8sServiceFile wellStartMark wellEndMark
  ++ deleteFieldsMark r imageBuildFile wellStartMark wellEndMark
  ++ deleteFieldsMark r imageBuildLocalFile wellStartMark wellEndMark
  ++ deleteAllFieldsMark r makeFile wellStartMark wellEndMark
  ++ deleteFieldsMark r gitIgnoreFile wellStartMark wellEndMark
  ++ deleteAllFieldsMark r protoShellFile wellStartMark wellEndMark
  ++ deleteAllFieldsMark r appConfigFile wellStartMark wellEndMark
  ++ replaceFileContentMark r readmeFile ("## " +:+ serverName g)
  ++ [ field appConfigFileMark rpcServerConfigCode;
       field appConfigFileMark2 (getDBConfigCode (dbDriver g));
       field modelFileMark (index (codes g) CodeTypeModel);
       field modelInitDBFileMark (getInitDBCode (dbDriver g));
       field daoFileMark (index (codes g) CodeTypeDAO);
       field embedTimeMark (getEmbedTimeCode (isEmbed g));
       field protoFileMark (index (codes g) CodeTypeProto);
       field protoShellFileGRPCMark protoShellGRPCMark;
       field protoShellFileMark protoShellServiceTmplCode;
       field serviceFileMark
             (adjustmentOfIDType (index (codes g) CodeTypeService) (dbDriver g));
       field dockerFileMark dockerFileGrpcCode;
       field dockerFileBuildMark dockerFileBuildGrpcCode;
       field imageBuildFileMark imageBuildFileGrpcCode;
       field imageBuildLocalFileMark imageBuildLocalFileGrpcCode;
       field dockerComposeFileMark dockerComposeFileGrpcCode;
       field k8sDeploymentFileMark k8sDeploymentFileGrpcCode;
       field k8sServiceFileMark k8sServiceFileGrpcCode;
       field (selfPackageName +:+ "/" +:+ replacer.GetSourcePath r)
             (moduleName g);
       field ("api" +:+ GetPathDelimiter +:+ "userExample"
              +:+ GetPathDelimiter +:+ "v1")
             ("api" +:+ GetPathDelimiter +:+ serverName g
              +:+ GetPathDelimiter +:+ "v1") ].

(** The rule that rewrites the module-path prefix, and the rule that
    pins the import path of the shared library again. *)
Definition broadField (g : t) : Field :=
  field "github.com/zhufuyi/sponge" (moduleName g).
Definition narrowField (g : t) : Field :=
  field (moduleName g +:+ "/pkg") "github.com/zhufuyi/sponge/pkg".

(** The rule of the error-code line; [n] is what [rand.Intn(100)]
    returned. *)
Definition errorCodeField (n : Z) : Field :=
  field "_userExampleNO       = 2"
        ("_userExampleNO       = " +:+ formatInt n).

(** The fields after the two module-path rules. *)
Definition fieldsAfter (g : t) (n : Z) : list Field :=
  let repoHost := fst (parseImageRepoAddr (repoAddr g)) in
  [ field spongeTemplateVersionMark getLocalSpongeTemplateVersion;
    field "api/userExample/v1" ("api/" +:+ serverName g +:+ "/v1");
    field "api.userExample.v1" ("api." +:+ serverName g +:+ ".v1");
    field "sponge api docs" (serverName g +:+ " api docs");
    errorCodeField n;
    field "serverNameExample" (serverName g);
    field "server-name-example" (ToKebabCase (serverName g));
    field "project-name-example" (projectName g);
    field "projectNameExample" (projectName g);
    field "repo-addr-example" (repoAddr g);
    field "image-repo-host" repoHost;
    field "_grpcExample" EmptyString;
    field "_mixExample" EmptyString;
    field "root:123456@(192.168.3.37:3306)/account" (dbDSN g);
    field "root:123456@192.168.3.37:5432/account" (dbDSN g);
    field "test/sql/sqlite/sponge.db" (sqliteDSNAdaptation (dbDriver g) (dbDSN g));
    field "init.go.mgo" "init.go";
    field "userExample_client_test.go.mgo" "userExample_client_test.go";
    field "userExample.go.mgo" "userExample.go";
    mkField "UserExample" (index (codes g) TableName) true ].

(** [addFields]; [n] is the value its call of [rand.Intn(100)] returns. *)
Definition addFields (g : t) (r : Replacer) (n : Z) : list Field :=
  fieldsBefore g r ++ [broadField g; narrowField g] ++ fieldsAfter g n.

(** The [switch strings.ToLower(g.dbDriver)] of [generateCode]. *)
Definition selectIgnoreFiles (dbDriver : string) : Res (list string) :=
  let d := ToLower unicodeLower dbDriver in
  if String.eqb d DBDriverMysql || String.eqb d DBDriverPostgresql
     || String.eqb d DBDriverTidb || String.eqb d DBDriverSqlite
  then Ok ignoreFilesSQL
  else if String.eqb d DBDriverMongodb
  then Ok ignoreFilesMongodb
  else Err ("unsupported db driver: " +:+ dbDriver).

Definition generateCode (g : t) : M string :=
  let subTplName := "rpc" in
  let! r := lookupReplacer in
  let subDirs :=
    [ "sponge/api"; "cmd/serverNameExample_grpcExample"; "sponge/configs";
      "sponge/deployments"; "sponge/scripts"; "sponge/internal";
      "sponge/third_party" ] in
  let subFiles :=
    [ "sponge/.gitignore"; "sponge/.golangci.yml"; "sponge/go.mod";
      "sponge/go.sum"; "sponge/Jenkinsfile"; "sponge/Makefile";
      "sponge/README.md" ] in
  let ignoreDirs :=
    [ "internal/handler"; "internal/rpcclient"; "internal/routers";
      "internal/types"; "cmd/sponge" ] in
  match selectIgnoreFiles (dbDriver g) with
  | Err e => fail e
  | Ok ignoreFiles =>
      let r := replacer.SetSubDirsAndFiles r subDirs subFiles in
      let r := replacer.SetIgnoreSubDirs r ignoreDirs in
      let r := replacer.SetIgnoreSubFiles r ignoreFiles in
      let! n := callIntn 100 in
      let fields := addFields g r n in
      let r := replacer.SetReplacementFields r fields in
      let! e := getEnv in
      let r := replacer.SetOutputDir r (timestamp e) (outPath g)
                 (serverName g +:+ "_" +:+ subTplName) in
      storeReplacer r ;;
      callSaveFiles r ;;
      callSaveGenInfo (moduleName g) (serverName g) (replacer.GetOutputDir r) ;;
      ret (replacer.GetOutputDir r)
  end.
End Code.
End rpcGenerator.

Module RPCCommand.
Record flags := mkFlags {
  moduleName : string;
  serverName : string;
  projectName : string;
  repoAddr : string;
  outPath : string;
  dbTables : string;
  dbDriver : string;
  dbDsn : string;
  embed : bool;
  jsonNameType : Z
}.

Definition sqlArgs (f : flags) : Args :=
  mkArgs "model" true true (dbDriver f) (dbDsn f) EmptyString (embed f)
         (jsonNameType f).

(** [firstTable] and [servicesTableNames] from the split list. *)
Definition splitTables (tableNames : list string) : string * list string :=
  match tableNames with
  | [] => (EmptyString, [])
  | [t] => (t, [])
  | t :: rest => (t, rest)
  end.

Section Code.
Context `{T : Template} `{C : Collaborators}.

(** The body of the loop for one non-empty [serviceTableName]. *)
Definition serviceBody (moduleName serverName serviceTableName : string)
           (sqlArgs : Args) (outPath : string) : M (Args * string) :=
  let sqlArgs := setDBTable serviceTableName sqlArgs in
  let! ' (sqlArgs, codes) := callGenerate sqlArgs in
  let sg := serviceGenerator.mk moduleName serverName
              (DBDriver sqlArgs) (IsEmbed sqlArgs) codes outPath in
  let! outPath := callServicePass sg in
  ret (sqlArgs, outPath).

(** [for _, serviceTableName := range servicesTableNames { ... }]. *)
Fixpoint serviceLoop (moduleName serverName : string)
         (servicesTableNames : list string) (sqlArgs : Args)
         (outPath : string) : M (Args * string) :=
  match servicesTableNames with
  | [] => ret (sqlArgs, outPath)
  | serviceTableName :: rest =>
      if negb (nonEmpty serviceTableName)
      then serviceLoop moduleName serverName rest sqlArgs outPath
      else
        let! ' (sqlArgs, outPath) :=
          serviceBody moduleName serverName serviceTableName sqlArgs outPath in
        serviceLoop moduleName serverName rest sqlArgs outPath
  end.

(** [RunE] up to the return of the primary table's pass: the variables
    [serverName], [sqlArgs] and [outPath] as it leaves them. *)
Definition primaryPass (f : flags) : M (string * Args * string) :=
  let tableNames := SplitComma (dbTables f) in
  let firstTable := fst (splitTables tableNames) in
  let ' (projectName, serverName) :=
    convertProjectAndServerName (projectName f) (serverName f) in
  let sqlArgs := sqlArgs f in
  let sqlArgs :=
    if String.eqb (DBDriver sqlArgs) DBDriverMongodb
    then setIsEmbed false sqlArgs else sqlArgs in
  let sqlArgs := setDBTable firstTable sqlArgs in
  let! ' (sqlArgs, codes) := callGenerate sqlArgs in
  let g := rpcGenerator.mk (moduleName f) serverName projectName
             (repoAddr f) (DBDsn sqlArgs) (DBDriver sqlArgs)
             (IsEmbed sqlArgs) codes (outPath f) in
  let! outPath := rpcGenerator.generateCode g in
  ret (serverName, sqlArgs, outPath).

Definition helpText : string :=
  nl +:+ "using help:" +:+ nl
  +:+ "  1. open a terminal and execute the command to generate code:  make proto" +:+ nl
  +:+ "  2. compile and run service:   make run" +:+ nl
  +:+ "  3. open the file internal/service/xxx_client_test.go using Goland or VS Code, and test CRUD api interface." +:+ nl
  +:+ nl.

Definition RunE (f : flags) : M unit :=
  let servicesTableNames := snd (splitTables (SplitComma (dbTables f))) in
  let! ' (serverName, sqlArgs, outPath) := primaryPass f in
  let! ' (_, outPath) :=
    serviceLoop (moduleName f) serverName servicesTableNames sqlArgs outPath in
  Printf helpText ;;
  Printf ("generate " +:+ serverName
          +:+ "'s grpc service code successfully, out = " +:+ outPath +:+ nl) ;;
  callConfigmap serverName outPath.
End Code.
End RPCCommand.

(** ** gen-db-init.go *)

Module dbInitGenerator.
Record t := mk {
  moduleName : string;
  dbDriver : string;
  outPath : string
}.

Section Code.
Context `{T : Template} `{C : Collaborators}.

Definition addFields (g : t) (r : Replacer) : list Field :=
  DeleteCodeMark r ModelInitDBFile StartMark EndMark
  ++ [ mkField "github.com/zhufuyi/sponge/internal"
               (moduleName g +:+ "/internal") false;
       mkField "github.com/zhufuyi/sponge/configs"
               (moduleName g +:+ "/configs") false;
       field "init.go.mgo" "init.go";
       field ModelInitDBFileMark (GetInitDataBaseCode (dbDriver g)) ].

(** The [switch strings.ToLower(g.dbDriver)] of [generateCode]. *)
Definition selectIgnoreFiles (dbDriver : string) : Res (list string) :=
  let d := ToLower unicodeLower dbDriver in
  if String.eqb d DBDriverMysql || String.eqb d DBDriverPostgresql
     || String.eqb d DBDriverTidb || String.eqb d DBDriverSqlite
  then Ok ["userExample.go"; "init_test.go"; "init.go.mgo"]
  else if String.eqb d DBDriverMongodb
  then Ok ["userExample.go"; "init_test.go"; "init.go"]
  else Err ("unsupported database driver: " +:+ dbDriver).

Definition generateCode (g : t) : M string :=
  let subTplName := "init-" +:+ dbDriver g in
  let! r := lookupReplacer in
  let subDirs := ["internal/model"] in
  let ignoreDirs := [] in
  match selectIgnoreFiles (dbDriver g) with
  | Err e => fail e
  | Ok ignoreFiles =>
      let r := replacer.SetSubDirsAndFiles r subDirs [] in
      let r := replacer.SetIgnoreSubDirs r ignoreDirs in
      let r := replacer.SetIgnoreSubFiles r ignoreFiles in
      let fields := addFields g r in
      let r := replacer.SetReplacementFields r fields in
      let! e := getEnv in
      let r := replacer.SetOutputDir r (timestamp e) (outPath g) subTplName in
      storeReplacer r ;;
      callSaveFiles r ;;
      ret (replacer.GetOutputDir r)
  end.
End Code.
End dbInitGenerator.

Module GenerateDBInitCommand.
Record flags := mkFlags {
  moduleName : string;
  dbDriver : string;
  outPath : string
}.

Definition targetFile : string := "internal/model/init.go".

Definition moduleNameNotSet : string :=
  "required flag(s) " +:+ dq +:+ "module-name" +:+ dq +:+ " not set, use "
  +:+ dq +:+ "sponge patch gen-db-init -h" +:+ dq +:+ " for help".

Definition alreadyExists (file : string) : string :=
  "'" +:+ file +:+ "' already exists, no need to generate it." +:+ nl.

Definition helpText : string :=
  nl +:+ "using help:" +:+ nl
  +:+ "  move the folder " +:+ dq +:+ "internal" +:+ dq
  +:+ " to your project code folder." +:+ nl +:+ nl.

Section Code.
Context `{T : Template} `{C : Collaborators}.

(** [mdName, _ := getNamesFromOutDir(outPath)] and the choice of the
    module name. *)
Definition resolveModuleName (e : Env) (f : flags) : Res string :=
  let mdName := fst (getNamesFromOutDir e (outPath f)) in
  if nonEmpty mdName then Ok mdName
  else if negb (nonEmpty (moduleName f)) then Err moduleNameNotSet
  else Ok (moduleName f).

(** [RunE] from the existence test on, with the module name it has
    settled on. *)
Definition generate (moduleName : string) (f : flags) : M unit :=
  let! e := getEnv in
  let isEmpty := negb (nonEmpty (outPath f)) in
  if negb isEmpty && IsExists e targetFile
  then Printf (alreadyExists targetFile)
  else
    let g := dbInitGenerator.mk moduleName (dbDriver f) (outPath f) in
    let! outPath := dbInitGenerator.generateCode g in
    (if isEmpty then Printf helpText else ret tt) ;;
    let targetFile :=
      if IsWindows
      then backslash +:+ ReplaceAll targetFile "/" backslash
      else "/" +:+ targetFile in
    Printf ("generate " +:+ dq +:+ dbDriver f
            +:+ "-init" +:+ dq +:+ " codes successfully, out = "
            +:+ outPath +:+ targetFile +:+ nl).

Definition RunE (f : flags) : M unit :=
  let! e := getEnv in
  match resolveModuleName e f with
  | Err msg => fail msg
  | Ok moduleName => generate moduleName f
  end.
End Code.
End GenerateDBInitCommand.

(** ** The Field Substitution Engine *)

Module Substitution.

(** Modelled from the spec: the engine that applies the fields is part of
    the replacer package, which is missing. Each field is a literal
    find-and-replace over the full content; a field that is not case
    sensitive ignores case when matching and inserts the replacement as it
    is given; fields are applied in list order. *)
Definition prefixNoCase (old s : string) : bool :=
  String.prefix (mapBytes lowerByte old) (mapBytes lowerByte s).

Definition matcher (f : Field) : string -> string -> bool :=
  if IsCaseSensitive f then String.prefix else prefixNoCase.

Definition applyField (f : Field) (content : string) : string :=
  if nonEmpty (Old f)
  then replaceFrom (matcher f) (Old f) (New f) 0 content
  else content.

Definition applyFields (fields : list Field) (content : string) : string :=
  fold_left (fun c f => applyField f c) fields content.

End Substitution.

(** ** Reading the log *)

(** The arguments of the calls of [sql2code.Generate], in call order. *)
Fixpoint generateCalls (l : list Event) : list Args :=
  match l with
  | [] => []
  | EvGenerate a _ :: l' => a :: generateCalls l'
  | _ :: l' => generateCalls l'
  end.

(** The replacers [SaveFiles] was called on, in call order. *)
Fixpoint saveFilesCalls (l : list Event) : list Replacer :=
  match l with
  | [] => []
  | EvSaveFiles r _ :: l' => r :: saveFilesCalls l'
  | _ :: l' => saveFilesCalls l'
  end.

(** The output paths the secondary passes were given and what they returned,
    in call order. *)
Fixpoint servicePassCalls (l : list Event) : list (string * Res string) :=
  match l with
  | [] => []
  | EvServicePass sg res :: l' =>
      (serviceGenerator.outPath sg, res) :: servicePassCalls l'
  | _ :: l' => servicePassCalls l'
  end.

Definition printed (l : list Event) (msg : string) : Prop := EvPrint msg ∈ l.




(** What a pass adds to the log: one successful [SaveFiles] on the replacer
    whose output directory it returns, or on failure nothing or one failed
    [SaveFiles]. *)
Definition passEvents (evs : list Event) (res : Res string) : Prop :=
  match res with
  | Ok p => exists r, evs = [EvSaveFiles r None] /\ replacer.GetOutputDir r = p
  | Err e => evs = [] \/ exists r, evs = [EvSaveFiles r (Some e)]
  end.

(** The run of a command from an environment, with an empty log. *)
Definition run {A} (m : M A) (e : Env) : State * Res A := m (mkState e []).

(** ** What the commands hand to the collaborator, and how they end *)

(** What the model command passes to the collaborator for one table. *)
Definition modelCallArgs (tableName : string) (a : Args) : Args :=
  setDBTable tableName
    (if String.eqb (DBDriver a) DBDriverMongodb then setIsEmbed false a else a).

(** What the rpc command passes to the collaborator for the primary table. *)
Definition primaryCallArgs (f : RPCCommand.flags) : Args :=
  setDBTable (fst (RPCCommand.splitTables (SplitComma (RPCCommand.dbTables f))))
    (if String.eqb (DBDriver (RPCCommand.sqlArgs f)) DBDriverMongodb
     then setIsEmbed false (RPCCommand.sqlArgs f) else RPCCommand.sqlArgs f).

(** The collaborator leaves the driver and the embed flag of the arguments
    it is handed as they are. *)
Definition leavesDriverAndEmbed `{Collaborators} : Prop :=
  forall a e,
    DBDriver (fst (fst (Generate a e))) = DBDriver a /\
    IsEmbed (fst (fst (Generate a e))) = IsEmbed a.

Definition mongoOff (a : Args) : Prop :=
  DBDriver a = DBDriverMongodb /\ IsEmbed a = false.

Definition tableGiven (a : Args) : Prop := DBTable a <> EmptyString.

(** The state after the closing messages of the rpc command. *)
Definition rpcEpilogue `{Collaborators} (sn o : string) (st : State) : State :=
  mkState (generateConfigmap sn o (env st))
          (log st ++ [EvPrint RPCCommand.helpText;
                      EvPrint ("generate " +:+ sn
                               +:+ "'s grpc service code successfully, out = "
                               +:+ o +:+ nl);
                      EvConfigmap sn o]).

(** The state after the closing messages of the model command. *)
Definition modelEpilogue (o : string) (st : State) : State :=
  mkState (env st)
          (log st ++ [EvPrint ModelCommand.helpText;
                      EvPrint ("generate " +:+ dq +:+ "model" +:+ dq
                               +:+ " code successfully, out = " +:+ o +:+ nl)]).

(** The driver, lower-cased, is none of the five the passes know. *)
Definition unsupported `{Template} (dbDriver : string) : Prop :=
  ToLower unicodeLower dbDriver
  ∉ [DBDriverMysql; DBDriverPostgresql; DBDriverTidb; DBDriverSqlite;
     DBDriverMongodb].

(** The module-path prefix of the template, the import path of the shared
    library, and the template line of the error code. *)
Definition spongePath : string := "github.com/zhufuyi/sponge".
Definition spongePkgPath : string := "github.com/zhufuyi/sponge/pkg".
Definition errorCodeLine : string := "_userExampleNO       = 2".

(** *** Rules that cannot touch an occurrence of a text *)

(** [x] and [y] differ at a byte both have. *)
Fixpoint clash (x y : string) : bool :=
  match x, y with
  | String a x', String b y' => negb (Ascii.eqb a b) || clash x' y'
  | _, _ => false
  end.

(** The non-empty suffixes of [s], longest first. *)
Fixpoint tails (s : string) : list string :=
  match s with
  | EmptyString => []
  | String _ s' => s :: tails s'
  end.

(** No occurrence of [old], in any letter case, can overlap an occurrence of
    [p]: [old] cannot start at a byte of [p], as it differs from every
    non-empty suffix of [p] at a byte both have, and it cannot start before
    [p] and reach into it, as every non-empty suffix of [old] differs from
    [p] at a byte both have. A rule with an empty [old] replaces nothing. *)
Definition apart (old p : string) : bool :=
  let o := mapBytes lowerByte old in
  let q := mapBytes lowerByte p in
  negb (nonEmpty old)
  || (forallb (fun v => clash o v) (tails q)
      && forallb (fun w => clash w q) (tails o)).

(** ** A concrete template and concrete collaborators *)

Module Demo.

Definition noFields (_ : Replacer) (_ _ _ : string) : list Field := [].

#[export] Instance template : Template := {|
  TplNameSponge := "sponge";
  selfPackageName := "github.com/zhufuyi/sponge";
  modelFile := "model/userExample.go";
  modelInitDBFile := "model/init.go";
  daoFile := "dao/userExample.go";
  daoMgoFile := "dao/userExample.go.mgo";
  daoTestFile := "dao/userExample_test.go";
  protoFile := "v1/userExample.proto";
  serviceLogicFile := "service/userExample.go";
  serviceClientFile := "service/userExample_client_test.go";
  serviceClientMgoFile := "service/userExample_client_test.go.mgo";
  serviceTestFile := "service/userExample_test.go";
  dockerFile := "Dockerfile";
  dockerFileBuild := "Dockerfile_build";
  dockerComposeFile := "docker-compose.yml";
  k8sDeploymentFile := "deployment.yml";
  k8sServiceFile := "svc.yml";
  imageBuildFile := "image-build.sh";
  imageBuildLocalFile := "image-build-local.sh";
  makeFile := "Makefile";
  gitIgnoreFile := ".gitignore";
  protoShellFile := "proto.sh";
  appConfigFile := "app.yml";
  readmeFile := "README.md";
  startMark := "<start>"; endMark := "<end>";
  wellStartMark := "<#start>"; wellEndMark := "<#end>";
  appConfigFileMark := "<appConfigFileMark>";
  rpcServerConfigCode := "grpc: port 8282";
  appConfigFileMark2 := "<appConfigFileMark2>";
  modelFileMark := "<modelFileMark>";
  modelInitDBFileMark := "<modelInitDBFileMark>";
  daoFileMark := "<daoFileMark>";
  embedTimeMark := "<embedTimeMark>";
  protoFileMark := "<protoFileMark>";
  protoShellFileGRPCMark := "<protoShellFileGRPCMark>";
  protoShellGRPCMark := "--go-grpc_out";
  protoShellFileMark := "<protoShellFileMark>";
  protoShellServiceTmplCode := "--tmpl=service";
  serviceFileMark := "<serviceFileMark>";
  dockerFileMark := "<dockerFileMark>";
  dockerFileGrpcCode := "EXPOSE 8282";
  dockerFileBuildMark := "<dockerFileBuildMark>";
  dockerFileBuildGrpcCode := "EXPOSE 8282";
  imageBuildFileMark := "<imageBuildFileMark>";
  imageBuildFileGrpcCode := "grpc image";
  imageBuildLocalFileMark := "<imageBuildLocalFileMark>";
  imageBuildLocalFileGrpcCode := "grpc local image";
  dockerComposeFileMark := "<dockerComposeFileMark>";
  dockerComposeFileGrpcCode := "ports: 8282";
  k8sDeploymentFileMark := "<k8sDeploymentFileMark>";
  k8sDeploymentFileGrpcCode := "containerPort: 8282";
  k8sServiceFileMark := "<k8sServiceFileMark>";
  k8sServiceFileGrpcCode := "port: 8282";
  spongeTemplateVersionMark := "<spongeTemplateVersionMark>";
  CodeTypeModel := "model"; CodeTypeDAO := "dao"; CodeTypeProto := "proto";
  CodeTypeService := "service"; TableName := "tableName";
  deleteFieldsMark := noFields;
  deleteAllFieldsMark := noFields;
  replaceFileContentMark := fun _ _ _ => [];
  getDBConfigCode := fun d => "driver: " +:+ d;
  getInitDBCode := fun d => "init " +:+ d;
  getEmbedTimeCode := fun b => if b then "embedded" else "columns";
  adjustmentOfIDType := fun code _ => code;
  getLocalSpongeTemplateVersion := "v1.0.0";
  parseImageRepoAddr := fun a => (a, a);
  sqliteDSNAdaptation := fun _ dsn => dsn;
  convertProjectAndServerName := fun p s => (p, s);
  ToKebabCase := fun s => s;
  GetPathDelimiter := "/";
  IsWindows := false;
  unicodeLower := fun s => s;
  DeleteCodeMark := noFields;
  ModelInitDBFile := "model/init.go";
  StartMark := "<start>"; EndMark := "<end>";
  ModelInitDBFileMark := "<modelInitDBFileMark>";
  GetInitDataBaseCode := fun d => "init " +:+ d
|}.

Definition setFiles (fs : gmap string string) (e : Env) : Env :=
  mkEnv fs (genInfos e) (timestamp e) (randState e) (Replacers e).

(** The table named [missing] is not in the database; [Generate] leaves its
    arguments as they are. *)
Definition demoGenerate (a : Args) (e : Env)
  : Args * Env * Res (gmap string string) :=
  if String.eqb (DBTable a) "missing"
  then (a, e, Err "table not found")
  else (a, e, Ok {[ "tableName" := DBTable a; "model" := "type " +:+ DBTable a ]}).

(** [SaveFiles] writes one file under the output directory. *)
Definition demoSaveFiles (r : Replacer) (e : Env) : Env * option string :=
  (setFiles (<[outputDir r +:+ "/generated" := "code"]> (files e)) e, None).

Definition demoServicePass (sg : serviceGenerator.t) (e : Env)
  : Env * Res string :=
  (setFiles (<[serviceGenerator.outPath sg +:+ "/internal/service/"
               +:+ index (serviceGenerator.codes sg) "tableName" := "code"]>
               (files e)) e,
   Ok (serviceGenerator.outPath sg)).

Definition demoIntn (n : Z) (e : Env) : Z * Env :=
  ((randState e mod n)%Z,
   mkEnv (files e) (genInfos e) (timestamp e) (randState e + 1)%Z (Replacers e)).

Definition demoIntn_range n e (Hn : (0 < n)%Z)
  : (0 <= fst (demoIntn n e) < n)%Z :=
  Z.mod_pos_bound (randState e) n Hn.

#[export] Instance collaborators : Collaborators := {|
  Generate := demoGenerate;
  SaveFiles := demoSaveFiles;
  serviceGenerateCode := demoServicePass;
  generateConfigmap := fun _ _ e => e;
  Intn := demoIntn;
  Intn_range := demoIntn_range
|}.

Definition emptyReplacer : Replacer :=
  mkReplacer "templates/sponge" [] [] [] [] [] EmptyString.

(** An environment with the template loaded and nothing generated yet. *)
Definition env0 : Env :=
  mkEnv ∅ ∅ "150405" 7 {[ "sponge" := emptyReplacer ]}.

(** The same environment before the template is loaded. *)
Definition envNoTemplate : Env := mkEnv ∅ ∅ "150405" 7 ∅.

End Demo.

(** ** Concrete requests *)

Definition mongoModelFlags : ModelCommand.flags :=
  ModelCommand.mkFlags EmptyString "user,order" "mongodb" "dsn" true 1.
Definition mongoRPCFlags : RPCCommand.flags :=
  RPCCommand.mkFlags "foo" "srv" "proj" "repo" EmptyString "user,order"
                     "mongodb" "dsn" true 1.
Definition mixedCaseFlags : RPCCommand.flags :=
  RPCCommand.mkFlags "foo" "srv" "proj" "repo" EmptyString "user"
                     "MongoDB" "dsn" true 1.
Definition emptyPrimaryFlags : RPCCommand.flags :=
  RPCCommand.mkFlags "foo" "srv" "proj" "repo" EmptyString ",t2"
                     "mysql" "dsn" true 1.
Definition threeTableFlags : RPCCommand.flags :=
  RPCCommand.mkFlags "foo" "srv" "proj" "repo" EmptyString "user,,order,item"
                     "mysql" "dsn" true 1.
Definition failingModelFlags : ModelCommand.flags :=
  ModelCommand.mkFlags "out" "user,missing,order" "mysql" "dsn" true 1.
Definition failingPrimaryFlags : RPCCommand.flags :=
  RPCCommand.mkFlags "foo" "srv" "proj" "repo" "out" "missing,order"
                     "mysql" "dsn" true 1.
Definition failingSecondaryFlags : RPCCommand.flags :=
  RPCCommand.mkFlags "foo" "srv" "proj" "repo" "out" "user,missing,order"
                     "mysql" "dsn" true 1.

Definition oracleGenerator : rpcGenerator.t :=
  rpcGenerator.mk "foo" "srv" "proj" "repo" "dsn" "oracle" true ∅ EmptyString.
Definition fooGenerator : rpcGenerator.t :=
  rpcGenerator.mk "foo" "srv" "proj" "repo" "dsn" "mysql" true
                  {[ "tableName" := "user" ]} EmptyString.
Definition mixedCaseGenerator : rpcGenerator.t :=
  rpcGenerator.mk "foo" "srv" "proj" "repo" "dsn" "MongoDB" true
                  {[ "tableName" := "user" ]} EmptyString.

(** A line of an ordinary template file: an import of the shared library,
    the example type and the example server name. *)
Definition templateContent : string :=
  "import github.com/zhufuyi/sponge/pkg/ginx; type UserExample struct; serverNameExample".

(** The same import after the mark of the model file, which an earlier
    rule replaces by the generated model code. *)
Definition markedContent : string :=
  "<modelFileMark> import github.com/zhufuyi/sponge/pkg/ginx; serverNameExample".

Definition existingOutputFlags : GenerateDBInitCommand.flags :=
  GenerateDBInitCommand.mkFlags "foo" "mysql" "out".

(** The output directory [out] already holds [internal/model/init.go]; the
    working directory holds no such file. *)
Definition envGenerated : Env :=
  Demo.setFiles {[ "out/internal/model/init.go" := "package model" ]} Demo.env0.

(** The working directory holds [internal/model/init.go]; the output
    directory [out] is empty. *)
Definition envCwdOnly : Env :=
  Demo.setFiles {[ "internal/model/init.go" := "package model" ]} Demo.env0.

(** ** More readings of the log *)

(** The generators of the secondary passes, in call order. *)
Fixpoint serviceGenerators (l : list Event) : list serviceGenerator.t :=
  match l with
  | [] => []
  | EvServicePass sg _ :: l' => sg :: serviceGenerators l'
  | _ :: l' => serviceGenerators l'
  end.

(** The rules every pass on generated codes carries: the model body and the
    table name. *)
Definition holdsCodes `{Template} (codes : gmap string string) (r : Replacer)
  : Prop :=
  field modelFileMark (index codes CodeTypeModel) ∈ replacementFields r /\
  mkField "UserExample" (index codes TableName) true ∈ replacementFields r.

(** The scope of the model pass: the model directory, without its init
    files. *)
Definition modelScope (r : Replacer) : Prop :=
  subDirs r = ["internal/model"] /\ subFiles r = [] /\ ignoreDirs r = [] /\
  ignoreFiles r = ["init.go"; "init_test.go"; "init.go.mgo"].

(** The closing message of gen-db-init for the output directory [p]. *)
Definition dbInitSuccess `{Template} (dbDriver p : string) : string :=
  "generate " +:+ dq +:+ dbDriver +:+ "-init" +:+ dq
  +:+ " codes successfully, out = " +:+ p
  +:+ (if IsWindows
       then backslash +:+ ReplaceAll GenerateDBInitCommand.targetFile "/" backslash
       else "/" +:+ GenerateDBInitCommand.targetFile)
  +:+ nl.

Definition rpcSuccess (sn o : string) : string :=
  "generate " +:+ sn +:+ "'s grpc service code successfully, out = " +:+ o +:+ nl.

Definition modelSuccess (o : string) : string :=
  "generate " +:+ dq +:+ "model" +:+ dq +:+ " code successfully, out = "
  +:+ o +:+ nl.

Definition onlyEmptyFlags : ModelCommand.flags :=
  ModelCommand.mkFlags "kept" ",," "mysql" "dsn" true 1.

(** The set-up of the gen-db-init pass for the module name [n] and the
    driver [d]: the model directory, the ignore list of the driver, and the
    two import-path rules under [n]. *)
Definition dbInitSetup `{Template} (n d : string) (r : Replacer) : Prop :=
  subDirs r = ["internal/model"] /\ subFiles r = [] /\ ignoreDirs r = [] /\
  dbInitGenerator.selectIgnoreFiles d = Ok (ignoreFiles r) /\
  mkField "github.com/zhufuyi/sponge/internal" (n +:+ "/internal") false
    ∈ replacementFields r /\
  mkField "github.com/zhufuyi/sponge/configs" (n +:+ "/configs") false
    ∈ replacementFields r.

(** What the passes of a mongodb run are handed. *)
Definition mongodbReplacer `{Template} (r : Replacer) : Prop :=
  ignoreFiles r = rpcGenerator.ignoreFilesMongodb /\
  field embedTimeMark (getEmbedTimeCode false) ∈ replacementFields r.

Definition mongodbGenerator (sg : serviceGenerator.t) : Prop :=
  serviceGenerator.dbDriver sg = DBDriverMongodb /\
  serviceGenerator.isEmbed sg = false.

(** ** The traces of the commands *)

(** The collaborator events of the model command's loop over the non-empty
    tables [ts], entered with the output path [o]: per table one
    schema-to-code call and one [SaveFiles] on a replacer that has the scope
    of the model pass and holds the codes of that call; a failing step ends
    the trace with its error. The result is the output path the loop ends
    with. *)
Inductive modelTrace `{Template}
  : string -> list string -> list Event -> Res string -> Prop :=
| modelTrace_done o : modelTrace o [] [] (Ok o)
| modelTrace_table o t ts a codes r evs res :
    DBTable a = t -> holdsCodes codes r -> modelScope r ->
    modelTrace (replacer.GetOutputDir r) ts evs res ->
    modelTrace o (t :: ts)
      (EvGenerate a (Ok codes) :: EvSaveFiles r None :: evs) res
| modelTrace_no_codes o t ts a e :
    DBTable a = t ->
    modelTrace o (t :: ts) [EvGenerate a (Err e)] (Err e)
| modelTrace_no_replacer o t ts a codes :
    DBTable a = t ->
    modelTrace o (t :: ts) [EvGenerate a (Ok codes)] (Err "replacer is nil")
| modelTrace_not_saved o t ts a codes r e :
    DBTable a = t -> holdsCodes codes r -> modelScope r ->
    modelTrace o (t :: ts)
      [EvGenerate a (Ok codes); EvSaveFiles r (Some e)] (Err e).

(** The same for the secondary tables of the rpc command, whose passes are
    service generators with the identity [m], [sn] of the run, the codes of
    their own call and the output path the pass before them returned. *)
Inductive serviceTrace (m sn : string)
  : string -> list string -> list Event -> Res string -> Prop :=
| serviceTrace_done o : serviceTrace m sn o [] [] (Ok o)
| serviceTrace_table o t ts a codes sg p evs res :
    DBTable a = t ->
    serviceGenerator.moduleName sg = m -> serviceGenerator.serverName sg = sn ->
    serviceGenerator.codes sg = codes -> serviceGenerator.outPath sg = o ->
    serviceTrace m sn p ts evs res ->
    serviceTrace m sn o (t :: ts)
      (EvGenerate a (Ok codes) :: EvServicePass sg (Ok p) :: evs) res
| serviceTrace_no_codes o t ts a e :
    DBTable a = t ->
    serviceTrace m sn o (t :: ts) [EvGenerate a (Err e)] (Err e)
| serviceTrace_failed o t ts a codes sg e :
    DBTable a = t ->
    serviceGenerator.moduleName sg = m -> serviceGenerator.serverName sg = sn ->
    serviceGenerator.codes sg = codes -> serviceGenerator.outPath sg = o ->
    serviceTrace m sn o (t :: ts)
      [EvGenerate a (Ok codes); EvServicePass sg (Err e)] (Err e).

(** The replacer of the primary pass carries the identity of the run. *)
Definition holdsIdentity (m sn : string) (r : Replacer) : Prop :=
  field "github.com/zhufuyi/sponge" m ∈ replacementFields r /\
  field "serverNameExample" sn ∈ replacementFields r.

(** * Properties *)

(** ** The string helpers on concrete inputs *)

Example SplitComma_ex1 : SplitComma "t1,t2" = ["t1"; "t2"].
Proof. reflexivity. Qed.
Example SplitComma_ex2 : SplitComma ",t2," = [EmptyString; "t2"; EmptyString].
Proof. reflexivity. Qed.
Example ToLower_ex f : ToLower f "MongoDB" = "mongodb".
Proof. reflexivity. Qed.
Example ReplaceAll_ex :
  ReplaceAll "internal/model/init.go" "/" backslash
  = "internal" +:+ backslash +:+ "model" +:+ backslash +:+ "init.go".
Proof. reflexivity. Qed.
Example formatInt_ex : formatInt 42 = "42" /\ formatInt 0 = "0" /\ formatInt 7 = "7".
Proof. repeat split; reflexivity. Qed.

(** ** Tactics and lemmas on the monad and the log *)

Ltac unfold_monad :=
  unfold run, bind, ret, fail, emit, Printf, getEnv, putEnv, lookupReplacer,
    storeReplacer, callSaveFiles, callGenerate, callServicePass,
    callConfigmap, callIntn, callSaveGenInfo in *.

Ltac break_match :=
  match goal with
  | |- context [match ?x with _ => _ end] =>
      lazymatch x with
      | context [match _ with _ => _ end] => fail
      | _ => destruct x eqn:?
      end
  end.

Ltac break_all := repeat (break_match; simpl in *; try congruence).

Lemma generateCalls_app l1 l2 :
  generateCalls (l1 ++ l2) = generateCalls l1 ++ generateCalls l2.
Proof.
  induction l1 as [|ev l1 IH]; simpl; [reflexivity|].
  destruct ev; simpl; rewrite ?IH; reflexivity.
Qed.

Lemma saveFilesCalls_app l1 l2 :
  saveFilesCalls (l1 ++ l2) = saveFilesCalls l1 ++ saveFilesCalls l2.
Proof.
  induction l1 as [|ev l1 IH]; simpl; [reflexivity|].
  destruct ev; simpl; rewrite ?IH; reflexivity.
Qed.


Lemma nonEmpty_true s : nonEmpty s = true <-> s <> EmptyString.
Proof. destruct s; simpl; split; congruence. Qed.

Section PassLogs.
Context `{T : Template} `{C : Collaborators}.

(** A pass calls [SaveFiles] at most once and never the schema-to-code
    collaborator. *)
Lemma model_pass_generateCalls g st :
  generateCalls (log (fst (modelGenerator.generateCode g st)))
  = generateCalls (log st).
Proof.
  unfold modelGenerator.generateCode. unfold_monad. simpl.
  break_all; rewrite ?generateCalls_app; simpl; rewrite ?app_nil_r; reflexivity.
Qed.

Lemma rpc_pass_generateCalls g st :
  generateCalls (log (fst (rpcGenerator.generateCode g st)))
  = generateCalls (log st).
Proof.
  unfold rpcGenerator.generateCode. unfold_monad. simpl.
  break_all; rewrite ?generateCalls_app; simpl; rewrite ?app_nil_r; reflexivity.
Qed.

Lemma callGenerate_generateCalls a st :
  generateCalls (log (fst (callGenerate a st)))
  = generateCalls (log st) ++ [a].
Proof.
  unfold_monad. break_all; rewrite ?generateCalls_app; reflexivity.
Qed.

Lemma callGenerate_args a st st' a' codes :
  callGenerate a st = (st', Ok (a', codes)) ->
  a' = fst (fst (Generate a (env st))).
Proof. unfold_monad. break_all. all: intros [= <- <- <-]; reflexivity. Qed.

Lemma callServicePass_generateCalls sg st :
  generateCalls (log (fst (callServicePass sg st))) = generateCalls (log st).
Proof.
  unfold_monad. break_all; rewrite ?generateCalls_app; simpl; rewrite ?app_nil_r; reflexivity.
Qed.

End PassLogs.

Section Loops.
Context `{T : Template} `{C : Collaborators}.

Lemma tableBody_generateCalls t a o st :
  generateCalls (log (fst (ModelCommand.tableBody t a o st)))
  = generateCalls (log st) ++ [modelCallArgs t a].
Proof.
  unfold ModelCommand.tableBody, bind at 1.
  fold (modelCallArgs t a).
  pose proof (callGenerate_generateCalls (modelCallArgs t a) st) as Hg.
  destruct (callGenerate (modelCallArgs t a) st) as [st1 [[a1 codes]|e]];
    simpl in *; [|exact Hg].
  unfold bind.
  pose proof (model_pass_generateCalls (modelGenerator.mk codes o) st1) as Hp.
  destruct (modelGenerator.generateCode _ st1) as [st2 [o2|e]];
    simpl in *; congruence.
Qed.

Lemma tableBody_args t a o st st' a' o' :
  ModelCommand.tableBody t a o st = (st', Ok (a', o')) ->
  a' = fst (fst (Generate (modelCallArgs t a) (env st))).
Proof.
  unfold ModelCommand.tableBody, bind at 1.
  fold (modelCallArgs t a).
  pose proof (callGenerate_args (modelCallArgs t a) st) as Hg.
  destruct (callGenerate (modelCallArgs t a) st) as [st1 [[a1 codes]|e]];
    simpl; [|discriminate].
  unfold bind.
  destruct (modelGenerator.generateCode _ st1) as [st2 [o2|e]];
    simpl; [|discriminate].
  unfold ret. intros [= <- <- <-]. eapply Hg. reflexivity.
Qed.

Lemma serviceBody_generateCalls m s t a o st :
  generateCalls (log (fst (RPCCommand.serviceBody m s t a o st)))
  = generateCalls (log st) ++ [setDBTable t a].
Proof.
  unfold RPCCommand.serviceBody, bind at 1.
  pose proof (callGenerate_generateCalls (setDBTable t a) st) as Hg.
  destruct (callGenerate (setDBTable t a) st) as [st1 [[a1 codes]|e]];
    simpl in *; [|exact Hg].
  unfold bind.
  match goal with |- context [callServicePass ?sg st1] =>
    pose proof (callServicePass_generateCalls sg st1) as Hp;
    destruct (callServicePass sg st1) as [st2 [o2|e]] end;
    simpl in *; congruence.
Qed.

Lemma serviceBody_args m s t a o st st' a' o' :
  RPCCommand.serviceBody m s t a o st = (st', Ok (a', o')) ->
  a' = fst (fst (Generate (setDBTable t a) (env st))).
Proof.
  unfold RPCCommand.serviceBody, bind at 1.
  pose proof (callGenerate_args (setDBTable t a) st) as Hg.
  destruct (callGenerate (setDBTable t a) st) as [st1 [[a1 codes]|e]];
    simpl; [|discriminate].
  unfold bind.
  match goal with |- context [callServicePass ?sg st1] =>
    destruct (callServicePass sg st1) as [st2 [o2|e]] end;
    simpl; [|discriminate].
  unfold ret. intros [= <- <- <-]. eapply Hg. reflexivity.
Qed.

(** The loops over a list and over its non-empty entries are the same
    computation. *)
Lemma tableLoop_skips_empty ts a o st :
  ModelCommand.tableLoop ts a o st
  = ModelCommand.tableLoop (List.filter nonEmpty ts) a o st.
Proof.
  revert a o st. induction ts as [|t ts IH]; intros a o st; [reflexivity|].
  simpl. destruct (nonEmpty t) eqn:Ht; simpl; [|apply IH].
  rewrite Ht. simpl. unfold bind.
  destruct (ModelCommand.tableBody t a o st) as [st1 [[a1 o1]|e]];
    [apply IH|reflexivity].
Qed.

Lemma serviceLoop_skips_empty m s ts a o st :
  RPCCommand.serviceLoop m s ts a o st
  = RPCCommand.serviceLoop m s (List.filter nonEmpty ts) a o st.
Proof.
  revert a o st. induction ts as [|t ts IH]; intros a o st; [reflexivity|].
  simpl. destruct (nonEmpty t) eqn:Ht; simpl; [|apply IH].
  rewrite Ht. simpl. unfold bind.
  destruct (RPCCommand.serviceBody m s t a o st) as [st1 [[a1 o1]|e]];
    [apply IH|reflexivity].
Qed.

(** An invariant [I] of the loop variable [sqlArgs] that the collaborator
    keeps, and a property [P] of the call arguments that follows from it,
    give [P] for every call the loop adds to the log. *)
Lemma tableLoop_calls (I P : Args -> Prop) :
  (forall a e, I a -> I (fst (fst (Generate a e)))) ->
  (forall t a, I a -> nonEmpty t = true ->
               I (modelCallArgs t a) /\ P (modelCallArgs t a)) ->
  forall ts a o st,
    I a ->
    exists calls,
      generateCalls (log (fst (ModelCommand.tableLoop ts a o st)))
      = generateCalls (log st) ++ calls /\ Forall P calls.
Proof.
  intros Hkeep Hcall ts. induction ts as [|t ts IH]; intros a o st Ha.
  - exists []. simpl. rewrite app_nil_r. split; [reflexivity|constructor].
  - simpl. destruct (nonEmpty t) eqn:Ht; simpl; [|apply IH; assumption].
    unfold bind.
    pose proof (tableBody_generateCalls t a o st) as Hlog.
    pose proof (tableBody_args t a o st) as Hargs.
    destruct (Hcall t a Ha Ht) as [HI HP].
    destruct (ModelCommand.tableBody t a o st) as [st1 [[a1 o1]|e]];
      simpl in *.
    + destruct (IH a1 o1 st1) as [calls [Hc HF]].
      * rewrite (Hargs st1 a1 o1 eq_refl). apply Hkeep, HI.
      * exists (modelCallArgs t a :: calls). rewrite Hc, Hlog, <- app_assoc.
        split; [reflexivity|constructor; assumption].
    + exists [modelCallArgs t a]. split; [exact Hlog|].
      constructor; [exact HP|constructor].
Qed.

Lemma serviceLoop_calls (I P : Args -> Prop) :
  (forall a e, I a -> I (fst (fst (Generate a e)))) ->
  (forall t a, I a -> nonEmpty t = true ->
               I (setDBTable t a) /\ P (setDBTable t a)) ->
  forall m s ts a o st,
    I a ->
    exists calls,
      generateCalls (log (fst (RPCCommand.serviceLoop m s ts a o st)))
      = generateCalls (log st) ++ calls /\ Forall P calls.
Proof.
  intros Hkeep Hcall m s ts. induction ts as [|t ts IH]; intros a o st Ha.
  - exists []. simpl. rewrite app_nil_r. split; [reflexivity|constructor].
  - simpl. destruct (nonEmpty t) eqn:Ht; simpl; [|apply IH; assumption].
    unfold bind.
    pose proof (serviceBody_generateCalls m s t a o st) as Hlog.
    pose proof (serviceBody_args m s t a o st) as Hargs.
    destruct (Hcall t a Ha Ht) as [HI HP].
    destruct (RPCCommand.serviceBody m s t a o st) as [st1 [[a1 o1]|e]];
      simpl in *.
    + destruct (IH a1 o1 st1) as [calls [Hc HF]].
      * rewrite (Hargs st1 a1 o1 eq_refl). apply Hkeep, HI.
      * exists (setDBTable t a :: calls). rewrite Hc, Hlog, <- app_assoc.
        split; [reflexivity|constructor; assumption].
    + exists [setDBTable t a]. split; [exact Hlog|].
      constructor; [exact HP|constructor].
Qed.

End Loops.

Section Commands.
Context `{T : Template} `{C : Collaborators}.

Lemma ModelCommand_RunE_generateCalls f st :
  generateCalls (log (fst (ModelCommand.RunE f st)))
  = generateCalls
      (log (fst (ModelCommand.tableLoop (SplitComma (ModelCommand.dbTables f))
                   (ModelCommand.sqlArgs f) (ModelCommand.outPath f) st))).
Proof.
  unfold ModelCommand.RunE, bind at 1.
  destruct (ModelCommand.tableLoop _ _ _ st) as [st1 [[a1 o1]|e]];
    [|reflexivity].
  unfold_monad. simpl. rewrite !generateCalls_app. simpl.
  rewrite !app_nil_r. reflexivity.
Qed.

Lemma primaryPass_generateCalls f st :
  generateCalls (log (fst (RPCCommand.primaryPass f st)))
  = generateCalls (log st) ++ [primaryCallArgs f].
Proof.
  unfold RPCCommand.primaryPass.
  destruct (convertProjectAndServerName _ _) as [pn sn].
  fold (primaryCallArgs f). unfold bind at 1.
  pose proof (callGenerate_generateCalls (primaryCallArgs f) st) as Hg.
  destruct (callGenerate (primaryCallArgs f) st) as [st1 [[a1 codes]|e]];
    simpl in *; [|exact Hg].
  unfold bind.
  match goal with |- context [rpcGenerator.generateCode ?g st1] =>
    pose proof (rpc_pass_generateCalls g st1) as Hp;
    destruct (rpcGenerator.generateCode g st1) as [st2 [o2|e]] end;
    simpl in *; congruence.
Qed.

Lemma primaryPass_args f st st' sn a' o' :
  RPCCommand.primaryPass f st = (st', Ok (sn, a', o')) ->
  a' = fst (fst (Generate (primaryCallArgs f) (env st))).
Proof.
  unfold RPCCommand.primaryPass.
  destruct (convertProjectAndServerName _ _) as [pn sn'].
  fold (primaryCallArgs f). unfold bind at 1.
  pose proof (callGenerate_args (primaryCallArgs f) st) as Hg.
  destruct (callGenerate (primaryCallArgs f) st) as [st1 [[a1 codes]|e]];
    simpl; [|discriminate].
  unfold bind.
  match goal with |- context [rpcGenerator.generateCode ?g st1] =>
    destruct (rpcGenerator.generateCode g st1) as [st2 [o2|e]] end;
    simpl; [|discriminate].
  unfold ret. intros [= <- <- <- <-]. eapply Hg. reflexivity.
Qed.

Lemma RPCCommand_RunE_generateCalls f st :
  generateCalls (log (fst (RPCCommand.RunE f st)))
  = match RPCCommand.primaryPass f st with
    | (st1, Ok (sn, a1, o1)) =>
        generateCalls
          (log (fst (RPCCommand.serviceLoop (RPCCommand.moduleName f) sn
                       (snd (RPCCommand.splitTables
                               (SplitComma (RPCCommand.dbTables f))))
                       a1 o1 st1)))
    | (st1, Err _) => generateCalls (log st1)
    end.
Proof.
  unfold RPCCommand.RunE, bind at 1.
  destruct (RPCCommand.primaryPass f st) as [st1 [[[sn a1] o1]|e]];
    [|reflexivity].
  unfold bind at 1.
  destruct (RPCCommand.serviceLoop _ _ _ _ _ st1) as [st2 [[a2 o2]|e]];
    [|reflexivity].
  unfold_monad. simpl. rewrite !generateCalls_app. simpl.
  rewrite !app_nil_r. reflexivity.
Qed.

Lemma RPCCommand_RunE_stages f st :
  RPCCommand.RunE f st
  = match RPCCommand.primaryPass f st with
    | (st1, Ok (sn, a1, o1)) =>
        match RPCCommand.serviceLoop (RPCCommand.moduleName f) sn
                (snd (RPCCommand.splitTables
                        (SplitComma (RPCCommand.dbTables f)))) a1 o1 st1 with
        | (st2, Ok (_, o2)) => (rpcEpilogue sn o2 st2, Ok tt)
        | (st2, Err e) => (st2, Err e)
        end
    | (st1, Err e) => (st1, Err e)
    end.
Proof.
  unfold RPCCommand.RunE, bind at 1.
  destruct (RPCCommand.primaryPass f st) as [st1 [[[sn a1] o1]|e]];
    [|reflexivity].
  unfold bind at 1.
  destruct (RPCCommand.serviceLoop _ _ _ _ _ st1) as [st2 [[a2 o2]|e]];
    [|reflexivity].
  unfold_monad. unfold rpcEpilogue. simpl. rewrite <- ?app_assoc.
  reflexivity.
Qed.

Lemma ModelCommand_RunE_stages f st :
  ModelCommand.RunE f st
  = match ModelCommand.tableLoop (SplitComma (ModelCommand.dbTables f))
            (ModelCommand.sqlArgs f) (ModelCommand.outPath f) st with
    | (st1, Ok (_, o1)) => (modelEpilogue o1 st1, Ok tt)
    | (st1, Err e) => (st1, Err e)
    end.
Proof.
  unfold ModelCommand.RunE, bind at 1.
  destruct (ModelCommand.tableLoop _ _ _ st) as [st1 [[a1 o1]|e]];
    [|reflexivity].
  unfold_monad. unfold modelEpilogue. simpl. unfold emit. simpl.
  rewrite <- ?app_assoc. reflexivity.
Qed.

End Commands.

(** ** C2: the embed flag under the mongodb driver *)

Section EmbedFlag.
Context `{T : Template} `{C : Collaborators}.

Lemma mongodb_modelCallArgs t a :
  DBDriver a = DBDriverMongodb -> mongoOff (modelCallArgs t a).
Proof.
  intros Hd. unfold modelCallArgs, mongoOff. rewrite Hd. simpl. auto.
Qed.

(** C2. When the driver flag is [mongodb], every call of the schema-to-code
    collaborator made by the model command and by the rpc command carries
    [IsEmbed = false], whatever the [--embed] flag says, provided the
    collaborator does not itself rewrite the driver and embed fields of the
    arguments it is handed by pointer. *)
Theorem mongodb_forces_embed_off :
  leavesDriverAndEmbed ->
  (forall f e,
      ModelCommand.dbDriver f = "mongodb" ->
      Forall (fun a => IsEmbed a = false)
             (generateCalls (log (fst (run (ModelCommand.RunE f) e))))) /\
  (forall f e,
      RPCCommand.dbDriver f = "mongodb" ->
      Forall (fun a => IsEmbed a = false)
             (generateCalls (log (fst (run (RPCCommand.RunE f) e))))).
Proof.
  intros Hkeep. split; intros f e Hd; unfold run.
  - rewrite ModelCommand_RunE_generateCalls.
    destruct (tableLoop_calls (fun a => DBDriver a = DBDriverMongodb)
                (fun a => IsEmbed a = false)) with
      (ts := SplitComma (ModelCommand.dbTables f))
      (a := ModelCommand.sqlArgs f) (o := ModelCommand.outPath f)
      (st := mkState e []) as [calls [-> HF]].
    + intros a e' Ha. rewrite (proj1 (Hkeep a e')). exact Ha.
    + intros t a Ha _. split; apply (mongodb_modelCallArgs t a Ha).
    + exact Hd.
    + exact HF.
  - rewrite RPCCommand_RunE_generateCalls.
    assert (Hp : mongoOff (primaryCallArgs f)).
    { unfold primaryCallArgs, mongoOff. simpl. rewrite Hd. simpl. auto. }
    pose proof (primaryPass_generateCalls f (mkState e [])) as Hlog.
    pose proof (primaryPass_args f (mkState e [])) as Hargs.
    destruct (RPCCommand.primaryPass f _) as [st1 [[[sn a1] o1]|err]];
      simpl in *.
    + destruct (serviceLoop_calls mongoOff (fun a => IsEmbed a = false)) with
        (m := RPCCommand.moduleName f) (s := sn)
        (ts := snd (RPCCommand.splitTables (SplitComma (RPCCommand.dbTables f))))
        (a := a1) (o := o1) (st := st1) as [calls [-> HF]].
      * intros a e' [Ha1 Ha2]. destruct (Hkeep a e') as [K1 K2].
        split; congruence.
      * intros t a [Ha1 Ha2] _. unfold mongoOff. simpl. auto.
      * rewrite (Hargs st1 sn a1 o1 eq_refl).
        destruct (Hkeep (primaryCallArgs f) e) as [K1 K2].
        destruct Hp. split; congruence.
      * rewrite Hlog. constructor; [apply Hp|exact HF].
    + rewrite Hlog. repeat constructor. apply Hp.
Qed.

End EmbedFlag.

Lemma demo_leavesDriverAndEmbed :
  @leavesDriverAndEmbed Demo.collaborators.
Proof.
  intros a e. simpl. unfold Demo.demoGenerate.
  destruct (String.eqb (DBTable a) "missing"); simpl; auto.
Qed.

Lemma mongodb_forces_embed_off_witness :
  Forall (fun a => IsEmbed a = false)
         (generateCalls
            (log (fst (run (ModelCommand.RunE (T:=Demo.template)
                              (C:=Demo.collaborators) mongoModelFlags)
                           Demo.env0)))) /\
  Forall (fun a => IsEmbed a = false)
         (generateCalls
            (log (fst (run (RPCCommand.RunE (T:=Demo.template)
                              (C:=Demo.collaborators) mongoRPCFlags)
                           Demo.env0)))).
Proof.
  split.
  - apply (proj1 (mongodb_forces_embed_off (T:=Demo.template)
                    (C:=Demo.collaborators) demo_leavesDriverAndEmbed)).
    reflexivity.
  - apply (proj2 (mongodb_forces_embed_off (T:=Demo.template)
                    (C:=Demo.collaborators) demo_leavesDriverAndEmbed)).
    reflexivity.
Defined.

(** ** C3: empty entries of the table list *)

(** C3, counterexample. With [--db-table=,t2] the rpc command hands the empty
    primary entry to the schema-to-code collaborator and runs the primary
    pass for it: the collaborator is called for the tables [""] and ["t2"],
    and [SaveFiles] is called once. *)
Lemma rpc_empty_primary_entry_is_not_skipped :
  let l := log (fst (run (RPCCommand.RunE (T:=Demo.template)
                            (C:=Demo.collaborators) emptyPrimaryFlags)
                         Demo.env0)) in
  map DBTable (generateCalls l) = [EmptyString; "t2"] /\
  length (saveFilesCalls l) = 1 /\
  ~ Forall (fun a => DBTable a <> EmptyString) (generateCalls l).
Proof.
  vm_compute. repeat split.
  intros H. inversion H as [|a l Ha Hl]; subst. apply Ha. reflexivity.
Qed.

Section EmptyEntries.
Context `{T : Template} `{C : Collaborators}.

Lemma setDBTable_given t a : nonEmpty t = true -> tableGiven (setDBTable t a).
Proof. intros Ht. unfold tableGiven. simpl. apply nonEmpty_true, Ht. Qed.

(** C3, amended. The model command skips every empty entry of the table
    list, and the rpc command skips every empty secondary entry: each loop
    is the same computation as the loop over the non-empty entries, every
    collaborator call of the model command names a table, and so does every
    collaborator call of the rpc command after the first one. *)
Theorem empty_entries_skipped :
  (forall ts a o st,
      ModelCommand.tableLoop ts a o st
      = ModelCommand.tableLoop (List.filter nonEmpty ts) a o st) /\
  (forall f e,
      Forall (fun a => DBTable a <> EmptyString)
             (generateCalls (log (fst (run (ModelCommand.RunE f) e))))) /\
  (forall m s ts a o st,
      RPCCommand.serviceLoop m s ts a o st
      = RPCCommand.serviceLoop m s (List.filter nonEmpty ts) a o st) /\
  (forall f e,
      Forall (fun a => DBTable a <> EmptyString)
             (tail (generateCalls (log (fst (run (RPCCommand.RunE f) e)))))).
Proof.
  split; [exact tableLoop_skips_empty|].
  split; [|split; [exact serviceLoop_skips_empty|]]; intros f e; unfold run.
  - rewrite ModelCommand_RunE_generateCalls.
    destruct (tableLoop_calls (fun _ => True) tableGiven) with
      (ts := SplitComma (ModelCommand.dbTables f))
      (a := ModelCommand.sqlArgs f) (o := ModelCommand.outPath f)
      (st := mkState e []) as [calls [-> HF]]; auto.
    intros t a _ Ht. split; [exact I|].
    unfold modelCallArgs. apply setDBTable_given, Ht.
  - rewrite RPCCommand_RunE_generateCalls.
    pose proof (primaryPass_generateCalls f (mkState e [])) as Hlog.
    destruct (RPCCommand.primaryPass f _) as [st1 [[[sn a1] o1]|err]];
      simpl in *; [|rewrite Hlog; constructor].
    destruct (serviceLoop_calls (fun _ => True) tableGiven) with
      (m := RPCCommand.moduleName f) (s := sn)
      (ts := snd (RPCCommand.splitTables (SplitComma (RPCCommand.dbTables f))))
      (a := a1) (o := o1) (st := st1) as [calls [-> HF]]; auto.
    + intros t a _ Ht. split; [exact I|]. apply setDBTable_given, Ht.
    + rewrite Hlog. exact HF.
Qed.

End EmptyEntries.

(** ** The shape of the log of a pass *)



Section PassShape.
Context `{T : Template} `{C : Collaborators}.

Lemma model_pass_log g st :
  exists evs,
    log (fst (modelGenerator.generateCode g st)) = log st ++ evs /\
    passEvents evs (snd (modelGenerator.generateCode g st)).
Proof.
  unfold modelGenerator.generateCode. unfold_monad. simpl.
  destruct (Replacers (env st) !! TplNameSponge) as [r|]; simpl.
  - match goal with |- context [SaveFiles ?r ?e] =>
      destruct (SaveFiles r e) as [e' [err|]] eqn:Hs end; simpl;
      eexists; (split; [reflexivity|]); simpl; eauto.
  - exists []. rewrite app_nil_r. simpl. auto.
Qed.

Lemma rpc_pass_log g st :
  exists evs,
    log (fst (rpcGenerator.generateCode g st)) = log st ++ evs /\
    passEvents evs (snd (rpcGenerator.generateCode g st)).
Proof.
  unfold rpcGenerator.generateCode. unfold_monad. simpl.
  destruct (Replacers (env st) !! TplNameSponge) as [r|]; simpl;
    [|exists []; rewrite app_nil_r; simpl; auto].
  destruct (rpcGenerator.selectIgnoreFiles _) as [ign|e]; simpl;
    [|exists []; rewrite app_nil_r; simpl; auto].
  destruct (Intn 100 (env st)) as [n e1]; simpl.
  match goal with |- context [SaveFiles ?r ?e] =>
    destruct (SaveFiles r e) as [e' [err|]] eqn:Hs end; simpl;
    eexists; (split; [reflexivity|]); simpl; eauto.
Qed.

Lemma dbinit_pass_log g st :
  exists evs,
    log (fst (dbInitGenerator.generateCode g st)) = log st ++ evs /\
    passEvents evs (snd (dbInitGenerator.generateCode g st)).
Proof.
  unfold dbInitGenerator.generateCode. unfold_monad. simpl.
  destruct (Replacers (env st) !! TplNameSponge) as [r|]; simpl;
    [|exists []; rewrite app_nil_r; simpl; auto].
  destruct (dbInitGenerator.selectIgnoreFiles _) as [ign|e]; simpl;
    [|exists []; rewrite app_nil_r; simpl; auto].
  match goal with |- context [SaveFiles ?r ?e] =>
    destruct (SaveFiles r e) as [e' [err|]] eqn:Hs end; simpl;
    eexists; (split; [reflexivity|]); simpl; eauto.
Qed.

Lemma callGenerate_log a st :
  exists res, log (fst (callGenerate a st)) = log st ++ [EvGenerate a res].
Proof. unfold_monad. break_all; eauto. Qed.

Lemma callServicePass_log sg st :
  log (fst (callServicePass sg st))
  = log st ++ [EvServicePass sg (snd (callServicePass sg st))].
Proof. unfold_monad. break_all. Qed.

End PassShape.

(** ** C4: the output path is threaded through the passes *)

Section Threading.
Context `{T : Template} `{C : Collaborators}.






End Threading.

(** A run with three tables: the primary pass creates [srv_rpc_150405] and
    both secondary passes are given that path. *)
Example three_tables_run :
  let l := log (fst (run (RPCCommand.RunE (T:=Demo.template)
                            (C:=Demo.collaborators) threeTableFlags)
                         Demo.env0)) in
  map replacer.GetOutputDir (saveFilesCalls l) = ["srv_rpc_150405"] /\
  servicePassCalls l
  = [("srv_rpc_150405", Ok "srv_rpc_150405");
     ("srv_rpc_150405", Ok "srv_rpc_150405")] /\
  map DBTable (generateCalls l) = ["user"; "order"; "item"].
Proof. vm_compute. repeat split. Qed.

(** ** C5: a failed table stops the run *)

Section Failure.
Context `{T : Template} `{C : Collaborators}.

Lemma tableLoop_app ts1 ts2 : forall a o st,
  ModelCommand.tableLoop (ts1 ++ ts2) a o st
  = match ModelCommand.tableLoop ts1 a o st with
    | (st1, Ok (a1, o1)) => ModelCommand.tableLoop ts2 a1 o1 st1
    | (st1, Err e) => (st1, Err e)
    end.
Proof.
  induction ts1 as [|t ts1 IH]; intros a o st; simpl; [reflexivity|].
  destruct (nonEmpty t); simpl; [|apply IH].
  unfold bind.
  destruct (ModelCommand.tableBody t a o st) as [st1 [[a1 o1]|e]];
    [apply IH|reflexivity].
Qed.

Lemma serviceLoop_app m s ts1 ts2 : forall a o st,
  RPCCommand.serviceLoop m s (ts1 ++ ts2) a o st
  = match RPCCommand.serviceLoop m s ts1 a o st with
    | (st1, Ok (a1, o1)) => RPCCommand.serviceLoop m s ts2 a1 o1 st1
    | (st1, Err e) => (st1, Err e)
    end.
Proof.
  induction ts1 as [|t ts1 IH]; intros a o st; simpl; [reflexivity|].
  destruct (nonEmpty t); simpl; [|apply IH].
  unfold bind.
  destruct (RPCCommand.serviceBody m s t a o st) as [st1 [[a1 o1]|e]];
    [apply IH|reflexivity].
Qed.

Lemma tableLoop_fails_at t ts a o st st' e :
  ModelCommand.tableLoop [t] a o st = (st', Err e) ->
  ModelCommand.tableLoop (t :: ts) a o st = (st', Err e).
Proof.
  simpl. destruct (nonEmpty t); simpl; [|discriminate].
  unfold bind.
  destruct (ModelCommand.tableBody t a o st) as [st1 [[a1 o1]|e1]];
    [discriminate|auto].
Qed.

Lemma serviceLoop_fails_at m s t ts a o st st' e :
  RPCCommand.serviceLoop m s [t] a o st = (st', Err e) ->
  RPCCommand.serviceLoop m s (t :: ts) a o st = (st', Err e).
Proof.
  simpl. destruct (nonEmpty t); simpl; [|discriminate].
  unfold bind.
  destruct (RPCCommand.serviceBody m s t a o st) as [st1 [[a1 o1]|e1]];
    [discriminate|auto].
Qed.

(** The log only grows. *)
Lemma tableBody_log_grows t a o st :
  log st `prefix_of` log (fst (ModelCommand.tableBody t a o st)).
Proof.
  unfold ModelCommand.tableBody, bind at 1.
  destruct (callGenerate_log (modelCallArgs t a) st) as [res Hg].
  fold (modelCallArgs t a).
  destruct (callGenerate (modelCallArgs t a) st) as [st1 [[a1 codes]|e]];
    simpl in *; [|rewrite Hg; apply prefix_app_r; reflexivity].
  unfold bind.
  match goal with |- context [modelGenerator.generateCode ?g st1] =>
    destruct (model_pass_log g st1) as [evs [Hl _]];
    destruct (modelGenerator.generateCode g st1) as [st2 [o2|e]] end;
    simpl in *; rewrite Hl, Hg, <- app_assoc; apply prefix_app_r; reflexivity.
Qed.

Lemma serviceBody_log_grows m s t a o st :
  log st `prefix_of` log (fst (RPCCommand.serviceBody m s t a o st)).
Proof.
  unfold RPCCommand.serviceBody, bind at 1.
  destruct (callGenerate_log (setDBTable t a) st) as [res Hg].
  destruct (callGenerate (setDBTable t a) st) as [st1 [[a1 codes]|e]];
    simpl in *; [|rewrite Hg; apply prefix_app_r; reflexivity].
  unfold bind.
  match goal with |- context [callServicePass ?sg st1] =>
    pose proof (callServicePass_log sg st1) as Hl;
    destruct (callServicePass sg st1) as [st2 [o2|e]] end;
    simpl in *; rewrite Hl, Hg, <- app_assoc; apply prefix_app_r; reflexivity.
Qed.

Lemma tableLoop_one_log_grows t a o st :
  log st `prefix_of` log (fst (ModelCommand.tableLoop [t] a o st)).
Proof.
  simpl. destruct (nonEmpty t); simpl; [|reflexivity].
  unfold bind. pose proof (tableBody_log_grows t a o st) as H.
  destruct (ModelCommand.tableBody t a o st) as [st1 [[a1 o1]|e]]; exact H.
Qed.

Lemma serviceLoop_one_log_grows m s t a o st :
  log st `prefix_of` log (fst (RPCCommand.serviceLoop m s [t] a o st)).
Proof.
  simpl. destruct (nonEmpty t); simpl; [|reflexivity].
  unfold bind. pose proof (serviceBody_log_grows m s t a o st) as H.
  destruct (RPCCommand.serviceBody m s t a o st) as [st1 [[a1 o1]|e]]; exact H.
Qed.

(** C5. When the tables before [t] have been generated, leaving the state
    [st1], and the step for [t] (its schema-to-code call or its pass) fails
    with [err] in the state [st2], the command returns [err] in exactly
    that state: no call is made for the tables listed after [t], and
    nothing is done to the environment after the failing call returns. The
    log of the completed passes is a prefix of the final log. This holds
    for the model command, for the primary table of the rpc command and for
    its secondary tables. *)
Theorem failure_stops_the_run :
  (forall f ts1 t ts2 st st1 a1 o1 st2 err,
      SplitComma (ModelCommand.dbTables f) = ts1 ++ t :: ts2 ->
      ModelCommand.tableLoop ts1 (ModelCommand.sqlArgs f)
        (ModelCommand.outPath f) st = (st1, Ok (a1, o1)) ->
      ModelCommand.tableLoop [t] a1 o1 st1 = (st2, Err err) ->
      ModelCommand.RunE f st = (st2, Err err) /\
      log st1 `prefix_of` log st2) /\
  (forall f st st1 err,
      RPCCommand.primaryPass f st = (st1, Err err) ->
      RPCCommand.RunE f st = (st1, Err err)) /\
  (forall f ts1 t ts2 st st0 sn a0 o0 st1 a1 o1 st2 err,
      snd (RPCCommand.splitTables (SplitComma (RPCCommand.dbTables f)))
      = ts1 ++ t :: ts2 ->
      RPCCommand.primaryPass f st = (st0, Ok (sn, a0, o0)) ->
      RPCCommand.serviceLoop (RPCCommand.moduleName f) sn ts1 a0 o0 st0
      = (st1, Ok (a1, o1)) ->
      RPCCommand.serviceLoop (RPCCommand.moduleName f) sn [t] a1 o1 st1
      = (st2, Err err) ->
      RPCCommand.RunE f st = (st2, Err err) /\
      log st1 `prefix_of` log st2).
Proof.
  split; [|split].
  - intros f ts1 t ts2 st st1 a1 o1 st2 err Hts H1 H2. split.
    + rewrite ModelCommand_RunE_stages, Hts, tableLoop_app, H1.
      rewrite (tableLoop_fails_at t ts2 a1 o1 st1 st2 err H2). reflexivity.
    + pose proof (tableLoop_one_log_grows t a1 o1 st1) as Hg.
      rewrite H2 in Hg. exact Hg.
  - intros f st st1 err H. rewrite RPCCommand_RunE_stages, H. reflexivity.
  - intros f ts1 t ts2 st st0 sn a0 o0 st1 a1 o1 st2 err Hts H0 H1 H2. split.
    + rewrite RPCCommand_RunE_stages, H0, Hts, serviceLoop_app, H1.
      rewrite (serviceLoop_fails_at _ _ t ts2 a1 o1 st1 st2 err H2).
      reflexivity.
    + pose proof (serviceLoop_one_log_grows (RPCCommand.moduleName f) sn
                    t a1 o1 st1) as Hg.
      rewrite H2 in Hg. exact Hg.
Qed.

End Failure.

(** The model run with the tables [user,missing,order]: the pass for [user]
    writes its file, the collaborator fails on [missing], [order] is never
    reached and the file of [user] is still there. The rpc runs fail on the
    primary table [missing] and on the secondary table [missing]. *)
Lemma failure_stops_the_run_witness :
  (let final := run (ModelCommand.RunE (T:=Demo.template)
                       (C:=Demo.collaborators) failingModelFlags) Demo.env0 in
   snd final = Err "table not found" /\
   map DBTable (generateCalls (log (fst final))) = ["user"; "missing"] /\
   files (env (fst final)) !! "out/generated" = Some "code") /\
  (let final := run (RPCCommand.RunE (T:=Demo.template)
                       (C:=Demo.collaborators) failingPrimaryFlags) Demo.env0 in
   snd final = Err "table not found" /\
   map DBTable (generateCalls (log (fst final))) = ["missing"]) /\
  (let final := run (RPCCommand.RunE (T:=Demo.template)
                       (C:=Demo.collaborators) failingSecondaryFlags) Demo.env0 in
   snd final = Err "table not found" /\
   map DBTable (generateCalls (log (fst final))) = ["user"; "missing"] /\
   files (env (fst final)) !! "out/generated" = Some "code").
Proof.
  split; [|split].
  - pose proof (proj1 (failure_stops_the_run (T:=Demo.template)
                         (C:=Demo.collaborators))
                  failingModelFlags ["user"] "missing" ["order"]
                  (mkState Demo.env0 [])) as H.
    specialize (H _ _ _ _ _ eq_refl eq_refl eq_refl).
    destruct H as [H _]. cbv zeta. unfold run. rewrite H.
    vm_compute. repeat split.
  - pose proof (proj1 (proj2 (failure_stops_the_run (T:=Demo.template)
                                (C:=Demo.collaborators)))
                  failingPrimaryFlags (mkState Demo.env0 [])) as H.
    specialize (H _ _ eq_refl).
    cbv zeta. unfold run. rewrite H. vm_compute. repeat split.
  - pose proof (proj2 (proj2 (failure_stops_the_run (T:=Demo.template)
                                (C:=Demo.collaborators)))
                  failingSecondaryFlags [] "missing" ["order"]
                  (mkState Demo.env0 [])) as H.
    specialize (H _ _ _ _ _ _ _ _ _ eq_refl eq_refl eq_refl eq_refl).
    destruct H as [H _]. cbv zeta. unfold run. rewrite H.
    vm_compute. repeat split.
Defined.

(** ** C6: an unsupported driver *)

(** C6, counterexample. Before the template replacer is loaded, the rpc pass
    for the unsupported driver [oracle] returns the error [replacer is nil],
    not an unsupported-driver error. *)
Lemma unsupported_driver_without_replacer :
  snd (run (rpcGenerator.generateCode (T:=Demo.template)
              (C:=Demo.collaborators) oracleGenerator) Demo.envNoTemplate)
  = Err "replacer is nil" /\
  snd (run (rpcGenerator.generateCode (T:=Demo.template)
              (C:=Demo.collaborators) oracleGenerator) Demo.envNoTemplate)
  <> Err "unsupported db driver: oracle".
Proof. vm_compute. split; [reflexivity|discriminate]. Qed.

Section UnsupportedDriver.
Context `{T : Template} `{C : Collaborators}.

Lemma eqb_not_in d x l :
  d ∉ x :: l -> String.eqb d x = false /\ d ∉ l.
Proof.
  intros H. split.
  - apply String.eqb_neq. intros ->. apply H. left.
  - intros Hin. apply H. right. exact Hin.
Qed.

Lemma rpc_select_unsupported d :
  unsupported d ->
  rpcGenerator.selectIgnoreFiles d = Err ("unsupported db driver: " +:+ d).
Proof.
  unfold unsupported, rpcGenerator.selectIgnoreFiles. intros H.
  repeat (apply eqb_not_in in H; destruct H as [-> H]). reflexivity.
Qed.

Lemma dbinit_select_unsupported d :
  unsupported d ->
  dbInitGenerator.selectIgnoreFiles d
  = Err ("unsupported database driver: " +:+ d).
Proof.
  unfold unsupported, dbInitGenerator.selectIgnoreFiles. intros H.
  repeat (apply eqb_not_in in H; destruct H as [-> H]). reflexivity.
Qed.

(** C6, amended. A pass whose driver, lower-cased, is none of mysql,
    postgresql, tidb, sqlite, mongodb returns an error and leaves the state
    as it found it: [SaveFiles] is not called and no file is written. The
    error is the unsupported-driver error when the template replacer is
    loaded, and [replacer is nil] when it is not. This holds for the rpc
    pass and for the gen-db-init pass. *)
Theorem unsupported_driver_writes_nothing :
  (forall g st,
      unsupported (rpcGenerator.dbDriver g) ->
      rpcGenerator.generateCode g st
      = (st, Err (match Replacers (env st) !! TplNameSponge with
                  | Some _ => "unsupported db driver: " +:+ rpcGenerator.dbDriver g
                  | None => "replacer is nil"
                  end))) /\
  (forall g st,
      unsupported (dbInitGenerator.dbDriver g) ->
      dbInitGenerator.generateCode g st
      = (st, Err (match Replacers (env st) !! TplNameSponge with
                  | Some _ => "unsupported database driver: "
                              +:+ dbInitGenerator.dbDriver g
                  | None => "replacer is nil"
                  end))).
Proof.
  split; intros g st H.
  - unfold rpcGenerator.generateCode. unfold_monad.
    destruct (Replacers (env st) !! TplNameSponge); [|reflexivity].
    rewrite (rpc_select_unsupported _ H). reflexivity.
  - unfold dbInitGenerator.generateCode. unfold_monad.
    destruct (Replacers (env st) !! TplNameSponge); [|reflexivity].
    rewrite (dbinit_select_unsupported _ H). reflexivity.
Qed.

End UnsupportedDriver.

Lemma oracle_unsupported : @unsupported Demo.template "oracle".
Proof.
  unfold unsupported. vm_compute.
  intros H. repeat (apply elem_of_cons in H; destruct H as [H|H];
                    [discriminate|]).
  inversion H.
Qed.

Lemma unsupported_driver_writes_nothing_witness :
  rpcGenerator.generateCode (T:=Demo.template) (C:=Demo.collaborators)
    oracleGenerator (mkState Demo.env0 [])
  = (mkState Demo.env0 [], Err "unsupported db driver: oracle") /\
  dbInitGenerator.generateCode (T:=Demo.template) (C:=Demo.collaborators)
    (dbInitGenerator.mk "foo" "oracle" "out") (mkState Demo.env0 [])
  = (mkState Demo.env0 [], Err "unsupported database driver: oracle").
Proof.
  split.
  - exact (proj1 (unsupported_driver_writes_nothing (T:=Demo.template)
                    (C:=Demo.collaborators))
             oracleGenerator (mkState Demo.env0 []) oracle_unsupported).
  - exact (proj2 (unsupported_driver_writes_nothing (T:=Demo.template)
                    (C:=Demo.collaborators))
             (dbInitGenerator.mk "foo" "oracle" "out")
             (mkState Demo.env0 []) oracle_unsupported).
Defined.

(** ** C1: the existence test of gen-db-init *)

Section ExistenceTest.
Context `{T : Template} `{C : Collaborators}.

(** The command takes the no-op branch exactly on a non-empty output path
    with [internal/model/init.go] present as the process resolves that
    path, whatever the output directory holds. *)
Lemma generate_noop moduleName f st :
  nonEmpty (GenerateDBInitCommand.outPath f) = true ->
  IsExists (env st) GenerateDBInitCommand.targetFile = true ->
  GenerateDBInitCommand.generate moduleName f st
  = (mkState (env st)
             (log st ++ [EvPrint (GenerateDBInitCommand.alreadyExists
                                    GenerateDBInitCommand.targetFile)]),
     Ok tt).
Proof.
  intros Ho Hex. unfold GenerateDBInitCommand.generate. unfold_monad.
  rewrite Ho, Hex. reflexivity.
Qed.

Lemma generate_runs_pass moduleName f st :
  IsExists (env st) GenerateDBInitCommand.targetFile = false ->
  fst (GenerateDBInitCommand.generate moduleName f st)
  = fst (bind (dbInitGenerator.generateCode
                 (dbInitGenerator.mk moduleName
                    (GenerateDBInitCommand.dbDriver f)
                    (GenerateDBInitCommand.outPath f)))
              (fun outPath =>
                 (if negb (nonEmpty (GenerateDBInitCommand.outPath f))
                  then Printf GenerateDBInitCommand.helpText else ret tt) ;;
                 Printf ("generate " +:+ dq +:+ GenerateDBInitCommand.dbDriver f
                         +:+ "-init" +:+ dq +:+ " codes successfully, out = "
                         +:+ outPath
                         +:+ (if IsWindows
                              then backslash
                                   +:+ ReplaceAll GenerateDBInitCommand.targetFile
                                         "/" backslash
                              else "/" +:+ GenerateDBInitCommand.targetFile)
                         +:+ nl)) st).
Proof.
  intros Hex. unfold GenerateDBInitCommand.generate.
  unfold bind at 1, getEnv. rewrite Hex, andb_false_r. reflexivity.
Qed.

End ExistenceTest.

(** C1, the code at the failing input. With [--out=out] and
    [out/internal/model/init.go] already generated, the command does not
    report the existing file: it runs the pass, [SaveFiles] is called on the
    output directory [out] and the file system changes. With the file in the
    working directory instead and nothing under [out], the command reports
    it and generates nothing. The test looks at [internal/model/init.go] as
    the process resolves it, not under the output path. *)
Theorem gen_db_init_tests_the_working_directory :
  let run_ := run (GenerateDBInitCommand.RunE (T:=Demo.template)
                     (C:=Demo.collaborators) existingOutputFlags) in
  (IsExists envGenerated ("out" +:+ "/" +:+ GenerateDBInitCommand.targetFile)
   = true /\
   snd (run_ envGenerated) = Ok tt /\
   map replacer.GetOutputDir (saveFilesCalls (log (fst (run_ envGenerated))))
   = ["out"] /\
   ~ printed (log (fst (run_ envGenerated)))
       (GenerateDBInitCommand.alreadyExists GenerateDBInitCommand.targetFile) /\
   files (env (fst (run_ envGenerated))) !! "out/generated" = Some "code") /\
  (IsExists envCwdOnly ("out" +:+ "/" +:+ GenerateDBInitCommand.targetFile)
   = false /\
   run_ envCwdOnly
   = (mkState envCwdOnly
              [EvPrint (GenerateDBInitCommand.alreadyExists
                          GenerateDBInitCommand.targetFile)],
      Ok tt)).
Proof.
  split.
  - split; [vm_compute; reflexivity|].
    split; [vm_compute; reflexivity|].
    split; [vm_compute; reflexivity|].
    split; [|vm_compute; reflexivity].
    unfold printed. vm_compute. intros H.
    repeat (apply elem_of_cons in H; destruct H as [H|H]; [discriminate|]).
    inversion H.
  - split; [vm_compute; reflexivity|].
    vm_compute. reflexivity.
Qed.

(** ** C8: the generation-info record *)

Section GenerationInfo.
Context `{T : Template} `{C : Collaborators}.




End GenerationInfo.


(** ** C10: the case of the driver name *)

Section DriverCase.
Context `{T : Template} `{C : Collaborators}.

Lemma rpc_pass_saveFiles g st r :
  Replacers (env st) !! TplNameSponge = Some r ->
  forall ign, rpcGenerator.selectIgnoreFiles (rpcGenerator.dbDriver g) = Ok ign ->
  exists r',
    saveFilesCalls (log (fst (rpcGenerator.generateCode g st)))
    = saveFilesCalls (log st) ++ [r'] /\
    ignoreFiles r' = ign /\
    exists r0,
      replacementFields r'
      = rpcGenerator.addFields g r0 (fst (Intn 100 (env st))).
Proof.
  intros Hr ign Hign. unfold rpcGenerator.generateCode. unfold_monad.
  rewrite Hr, Hign. simpl.
  destruct (Intn 100 (env st)) as [n e1]. simpl.
  match goal with |- context [SaveFiles ?r ?e] =>
    destruct (SaveFiles r e) as [e' [err|]] end; simpl;
    rewrite saveFilesCalls_app; simpl;
    eexists; (split; [reflexivity|]); simpl; eauto.
Qed.

(** C10. The passes lower-case the driver before they choose the ignored
    files, so [MongoDB] selects the mongodb lists of the rpc pass and of
    the gen-db-init pass; the commands compare the driver with [mongodb]
    as it is written, so under [MongoDB] the model and rpc commands hand
    the caller's embed flag to the collaborator unchanged, and the rpc
    pass saves the mongodb file set with the embed code of that flag. *)
Theorem driver_case_is_handled_unevenly :
  (rpcGenerator.selectIgnoreFiles "MongoDB" = Ok rpcGenerator.ignoreFilesMongodb /\
   rpcGenerator.selectIgnoreFiles "MongoDB"
   = rpcGenerator.selectIgnoreFiles "mongodb" /\
   dbInitGenerator.selectIgnoreFiles "MongoDB"
   = Ok ["userExample.go"; "init_test.go"; "init.go"]) /\
  (forall f e,
      RPCCommand.dbDriver f = "MongoDB" ->
      exists a rest,
        generateCalls (log (fst (run (RPCCommand.RunE f) e))) = a :: rest /\
        DBDriver a = "MongoDB" /\ IsEmbed a = RPCCommand.embed f) /\
  (forall t a,
      DBDriver a = "MongoDB" -> IsEmbed (modelCallArgs t a) = IsEmbed a) /\
  (forall g st r,
      rpcGenerator.dbDriver g = "MongoDB" ->
      Replacers (env st) !! TplNameSponge = Some r ->
      exists r',
        saveFilesCalls (log (fst (rpcGenerator.generateCode g st)))
        = saveFilesCalls (log st) ++ [r'] /\
        ignoreFiles r' = rpcGenerator.ignoreFilesMongodb /\
        field embedTimeMark (getEmbedTimeCode (rpcGenerator.isEmbed g))
        ∈ replacementFields r').
Proof.
  split; [repeat split|]. split; [|split].
  - intros f e Hd. unfold run.
    rewrite RPCCommand_RunE_generateCalls.
    pose proof (primaryPass_generateCalls f (mkState e [])) as Hlog.
    assert (Ha : DBDriver (primaryCallArgs f) = "MongoDB" /\
                 IsEmbed (primaryCallArgs f) = RPCCommand.embed f).
    { unfold primaryCallArgs. simpl. rewrite Hd. simpl. auto. }
    destruct (RPCCommand.primaryPass f _) as [st1 [[[sn a1] o1]|err]];
      simpl in *.
    + destruct (serviceLoop_calls (fun _ => True) (fun _ => True)) with
        (m := RPCCommand.moduleName f) (s := sn)
        (ts := snd (RPCCommand.splitTables (SplitComma (RPCCommand.dbTables f))))
        (a := a1) (o := o1) (st := st1) as [calls [-> _]]; auto.
      rewrite Hlog. simpl. eauto.
    + rewrite Hlog. eauto.
  - intros t a Hd. unfold modelCallArgs. rewrite Hd. reflexivity.
  - intros g st r Hd Hr.
    destruct (rpc_pass_saveFiles g st r Hr rpcGenerator.ignoreFilesMongodb)
      as [r' [Hs [Hi [r0 Hf]]]].
    { rewrite Hd. reflexivity. }
    exists r'. split; [exact Hs|]. split; [exact Hi|].
    rewrite Hf. unfold rpcGenerator.addFields.
    apply elem_of_app. left. unfold rpcGenerator.fieldsBefore.
    repeat (apply elem_of_app; right).
    repeat (apply elem_of_cons; first [left; reflexivity | right]).
Qed.

End DriverCase.

(** The rpc command under [--db-driver=MongoDB --embed=true]: the
    collaborator is called with the embed flag set and the pass saves the
    mongodb file set. *)
Lemma driver_case_is_handled_unevenly_witness :
  (exists a rest,
      generateCalls
        (log (fst (run (RPCCommand.RunE (T:=Demo.template)
                          (C:=Demo.collaborators) mixedCaseFlags) Demo.env0)))
      = a :: rest /\
      DBDriver a = "MongoDB" /\ IsEmbed a = true) /\
  IsEmbed (modelCallArgs "user" (RPCCommand.sqlArgs mixedCaseFlags)) = true /\
  (exists r',
      saveFilesCalls
        (log (fst (rpcGenerator.generateCode (T:=Demo.template)
                     (C:=Demo.collaborators) mixedCaseGenerator
                     (mkState Demo.env0 []))))
      = [r'] /\
      ignoreFiles r' = rpcGenerator.ignoreFilesMongodb /\
      field "<embedTimeMark>" "embedded" ∈ replacementFields r').
Proof.
  split; [|split].
  - apply (proj1 (proj2 (driver_case_is_handled_unevenly (T:=Demo.template)
                           (C:=Demo.collaborators)))).
    reflexivity.
  - apply (proj1 (proj2 (proj2 (driver_case_is_handled_unevenly
                                  (T:=Demo.template) (C:=Demo.collaborators))))
             "user" (RPCCommand.sqlArgs mixedCaseFlags)).
    reflexivity.
  - apply (proj2 (proj2 (proj2 (driver_case_is_handled_unevenly
                                  (T:=Demo.template) (C:=Demo.collaborators))))
             mixedCaseGenerator (mkState Demo.env0 []) Demo.emptyReplacer);
      reflexivity.
Defined.

(** ** C9: the random error code *)

Lemma formatInt_inj n1 n2 :
  (0 <= n1)%Z -> (0 <= n2)%Z -> formatInt n1 = formatInt n2 -> n1 = n2.
Proof.
  assert (Hz : forall p, "0" <> NilEmpty.string_of_uint (Pos.to_uint p)).
  { intros p Heq.
    apply (f_equal NilEmpty.uint_of_string) in Heq.
    rewrite NilEmpty.usu in Heq. simpl in Heq.
    injection Heq as Heq.
    apply (DecimalPos.Unsigned.to_uint_nonzero p). symmetry. exact Heq. }
  destruct n1 as [|p|p], n2 as [|q|q]; simpl; try lia; intros _ _ Heq.
  - destruct (Hz q Heq).
  - destruct (Hz p (eq_sym Heq)).
  - apply (f_equal NilEmpty.uint_of_string) in Heq.
    rewrite !NilEmpty.usu in Heq. injection Heq as Heq.
    apply DecimalPos.Unsigned.to_uint_inj in Heq. congruence.
Qed.

Lemma string_app_nil_r (s : string) : s +:+ EmptyString = s.
Proof.
  induction s as [|c s IH]; [reflexivity|].
  change (String c s +:+ EmptyString) with (String c (s +:+ EmptyString)).
  f_equal. exact IH.
Qed.

Section RandomErrorCode.
Context `{T : Template} `{C : Collaborators}.

Lemma errorCodeField_in g r n :
  rpcGenerator.errorCodeField n ∈ rpcGenerator.addFields g r n.
Proof.
  unfold rpcGenerator.addFields, rpcGenerator.fieldsAfter.
  apply elem_of_app. right. apply elem_of_app. right.
  repeat (apply elem_of_cons; first [left; reflexivity | right]).
Qed.

Lemma errorCodeField_applied n :
  Substitution.applyField (rpcGenerator.errorCodeField n) errorCodeLine
  = "_userExampleNO       = " +:+ formatInt n.
Proof.
  unfold Substitution.applyField, rpcGenerator.errorCodeField, errorCodeLine.
  cbn -[formatInt]. rewrite string_app_nil_r. reflexivity.
Qed.

(** C9. The field list of the rpc pass holds the rule of the
    [_userExampleNO] line, whose replacement embeds the value [n] of
    [rand.Intn(100)], an integer with [0 <= n < 100]; the pass hands
    [SaveFiles] the list built with the draw of its run. Two draws that
    differ give, for the same generator and replacer, field lists that
    differ, and the rule turns the template line into two different lines;
    within one list the draw is fixed. *)
Theorem error_code_is_random :
  (forall g r e,
      let n := fst (Intn 100 e) in
      (0 <= n < 100)%Z /\
      rpcGenerator.errorCodeField n ∈ rpcGenerator.addFields g r n /\
      New (rpcGenerator.errorCodeField n)
      = "_userExampleNO       = " +:+ formatInt n) /\
  (forall g st r ign,
      Replacers (env st) !! TplNameSponge = Some r ->
      rpcGenerator.selectIgnoreFiles (rpcGenerator.dbDriver g) = Ok ign ->
      exists r' r0,
        saveFilesCalls (log (fst (rpcGenerator.generateCode g st)))
        = saveFilesCalls (log st) ++ [r'] /\
        replacementFields r'
        = rpcGenerator.addFields g r0 (fst (Intn 100 (env st)))) /\
  (forall g r n1 n2,
      (0 <= n1 < 100)%Z -> (0 <= n2 < 100)%Z -> n1 <> n2 ->
      rpcGenerator.addFields g r n1 <> rpcGenerator.addFields g r n2 /\
      Substitution.applyField (rpcGenerator.errorCodeField n1) errorCodeLine
      <> Substitution.applyField (rpcGenerator.errorCodeField n2) errorCodeLine).
Proof.
  split; [|split].
  - intros g r e n. split; [apply Intn_range; lia|].
    split; [apply errorCodeField_in|reflexivity].
  - intros g st r ign Hr Hign.
    destruct (rpc_pass_saveFiles g st r Hr ign Hign) as [r' [Hs [_ [r0 Hf]]]].
    eauto.
  - intros g r n1 n2 H1 H2 Hne.
    assert (Hfmt : "_userExampleNO       = " +:+ formatInt n1
                   <> "_userExampleNO       = " +:+ formatInt n2).
    { intros Heq. apply (inj (String.app _)) in Heq.
      apply Hne, formatInt_inj; [lia|lia|exact Heq]. }
    split.
    + unfold rpcGenerator.addFields. intros Heq.
      apply app_inv_head in Heq. injection Heq as Heq.
      apply Hne, formatInt_inj; [lia|lia|exact Heq].
    + rewrite !errorCodeField_applied. exact Hfmt.
Qed.

End RandomErrorCode.

(** Two runs of the rpc pass that differ only in the state of the random
    source build different error-code rules, and the pass hands [SaveFiles]
    the list of its draw. *)
Lemma error_code_is_random_witness :
  rpcGenerator.addFields (T:=Demo.template) fooGenerator Demo.emptyReplacer 7
  <> rpcGenerator.addFields (T:=Demo.template) fooGenerator Demo.emptyReplacer 42 /\
  Substitution.applyField (rpcGenerator.errorCodeField 7) errorCodeLine
  = "_userExampleNO       = 7" /\
  Substitution.applyField (rpcGenerator.errorCodeField 42) errorCodeLine
  = "_userExampleNO       = 42" /\
  (exists r' r0,
      saveFilesCalls
        (log (fst (rpcGenerator.generateCode (T:=Demo.template)
                     (C:=Demo.collaborators) fooGenerator
                     (mkState Demo.env0 []))))
      = [r'] /\
      replacementFields r'
      = rpcGenerator.addFields (T:=Demo.template) fooGenerator r0 7).
Proof.
  split; [|split; [|split]].
  - apply (proj2 (proj2 (error_code_is_random (T:=Demo.template)
                           (C:=Demo.collaborators)))); lia.
  - vm_compute; reflexivity.
  - vm_compute; reflexivity.
  - apply (proj1 (proj2 (error_code_is_random (T:=Demo.template)
                           (C:=Demo.collaborators)))
             fooGenerator (mkState Demo.env0 []) Demo.emptyReplacer
             rpcGenerator.ignoreFilesSQL); reflexivity.
Defined.

(** ** C7: the module-path rule and the rule that restores the library path *)

(** C7, counterexample. The content holds the library path, directly
    followed by text that completes a second occurrence of the module-path
    prefix. The module-path rule rewrites both occurrences, the narrow rule
    finds no [foo/pkg] to restore, and the result of the whole list no longer
    holds the library path. *)
Lemma library_path_not_restored :
  let content := spongePkgPath +:+ "ithub.com/zhufuyi/sponge" in
  contains content spongePkgPath = true /\
  Substitution.applyFields
    (rpcGenerator.addFields (T:=Demo.template) fooGenerator Demo.emptyReplacer 7)
    content = "foo/pkfoo" /\
  contains
    (Substitution.applyFields
       (rpcGenerator.addFields (T:=Demo.template) fooGenerator
          Demo.emptyReplacer 7) content) spongePkgPath = false.
Proof. vm_compute. repeat split. Qed.

Section Replace.

Lemma append_cons c s t : String c s +:+ t = String c (s +:+ t).
Proof. reflexivity. Qed.

Lemma append_assoc (s t u : string) : (s +:+ t) +:+ u = s +:+ (t +:+ u).
Proof.
  induction s as [|c s IH]; [reflexivity|].
  rewrite !append_cons, IH. reflexivity.
Qed.

Lemma mapBytes_app f a b :
  mapBytes f (a +:+ b) = mapBytes f a +:+ mapBytes f b.
Proof.
  induction a as [|c a IH]; [reflexivity|].
  rewrite append_cons. simpl. rewrite IH. reflexivity.
Qed.

Lemma mapBytes_length f s : String.length (mapBytes f s) = String.length s.
Proof. induction s as [|c s IH]; simpl; congruence. Qed.

Lemma prefix_app_self s t : String.prefix s (s +:+ t) = true.
Proof.
  induction s as [|c s IH]; [destruct t; reflexivity|].
  rewrite append_cons. simpl.
  destruct (ascii_dec c c); [exact IH|congruence].
Qed.

Lemma prefixNoCase_self old t :
  Substitution.prefixNoCase old (old +:+ t) = true.
Proof.
  unfold Substitution.prefixNoCase. rewrite mapBytes_app.
  apply prefix_app_self.
Qed.

Lemma contains_prefix s t : String.prefix t s = true -> contains s t = true.
Proof. intros H. destruct s; simpl in *; rewrite H; reflexivity. Qed.

Lemma contains_app u t v : contains (u +:+ t +:+ v) t = true.
Proof.
  induction u as [|c u IH].
  - change (EmptyString +:+ t +:+ v) with (t +:+ v).
    apply contains_prefix, prefix_app_self.
  - rewrite append_cons. simpl. rewrite IH. apply orb_true_r.
Qed.

Variables (isPrefix : string -> string -> bool) (old new : string).

Lemma replaceFrom_skip s : forall rest,
  replaceFrom isPrefix old new (String.length s) (s +:+ rest)
  = replaceFrom isPrefix old new 0 rest.
Proof.
  induction s as [|c s IH]; intros rest.
  - destruct rest; reflexivity.
  - rewrite append_cons. simpl. apply IH.
Qed.

Lemma replaceFrom_match s :
  nonEmpty old = true -> nonEmpty s = true -> isPrefix old s = true ->
  forall c s', s = String c s' ->
  replaceFrom isPrefix old new 0 s
  = new +:+ replaceFrom isPrefix old new (String.length old - 1) s'.
Proof. intros _ _ Hp c s' ->. simpl. rewrite Hp. reflexivity. Qed.

Hypothesis isPrefix_self : forall t, isPrefix old (old +:+ t) = true.

(** An occurrence of a non-empty [old] at the scanning position is
    replaced. *)
Lemma replaceFrom_here rest :
  nonEmpty old = true ->
  replaceFrom isPrefix old new 0 (old +:+ rest)
  = new +:+ replaceFrom isPrefix old new 0 rest.
Proof.
  intros Hne. pose proof (isPrefix_self rest) as Hp.
  assert (exists c o, old = String c o) as [c [o Eo]]
    by (destruct old; [discriminate|eauto]).
  assert (Hs : old +:+ rest = String c (o +:+ rest))
    by (rewrite Eo; reflexivity).
  rewrite Hs in *. simpl. rewrite Hp.
  replace (String.length old - 1) with (String.length o)
    by (rewrite Eo; simpl; lia).
  rewrite replaceFrom_skip. reflexivity.
Qed.

(** Where a non-empty [old] occurs, the result holds [new]. *)
Lemma replaceFrom_occurrence x y :
  nonEmpty old = true ->
  exists u v,
    replaceFrom isPrefix old new 0 (x +:+ old +:+ y) = u +:+ new +:+ v.
Proof.
  intros Hne. induction x as [|c x IH].
  - exists EmptyString. eexists.
    change (EmptyString +:+ old +:+ y) with (old +:+ y).
    rewrite replaceFrom_here by exact Hne. reflexivity.
  - rewrite append_cons. simpl.
    destruct (isPrefix old (String c (x +:+ old +:+ y))).
    + exists EmptyString. eexists. reflexivity.
    + destruct IH as [u [v ->]]. exists (String c u), v. reflexivity.
Qed.

End Replace.

Section ModulePathRules.
Context `{T : Template}.

Ltac decide_bytes :=
  repeat match goal with
         | |- match ascii_dec ?a ?b with _ => _ end = false =>
             let E := fresh "E" in
             destruct (ascii_dec a b) as [E|E];
             [first [discriminate E | subst] | reflexivity]
         end.

(** No proper suffix of the module-path prefix starts it again: two
    occurrences of it never overlap. *)
Lemma spongePath_no_overlap pre rest :
  (0 < String.length pre < 25)%nat ->
  String.prefix spongePath (pre +:+ spongePath +:+ rest) = false.
Proof.
  intros H.
  do 25 (destruct pre as [|? pre];
         [first [ simpl in H; lia
                | cbv [spongePath String.append String.prefix]; decide_bytes ]
         |]).
  simpl in H. lia.
Qed.

Lemma spongePath_no_overlap_nocase pre rest :
  Substitution.prefixNoCase spongePath (pre +:+ spongePath +:+ rest) = true ->
  String.length pre = 0 \/ (25 <= String.length pre)%nat.
Proof.
  unfold Substitution.prefixNoCase. rewrite !mapBytes_app.
  change (mapBytes lowerByte spongePath) with spongePath.
  intros Hp.
  destruct (Nat.eq_dec (String.length pre) 0) as [|Hn]; [left; assumption|].
  destruct (le_lt_dec 25 (String.length pre)) as [|Hl]; [right; assumption|].
  rewrite spongePath_no_overlap in Hp; [discriminate|].
  rewrite mapBytes_length. lia.
Qed.

(** The scan for the module-path prefix reaches every occurrence of it. *)
Lemma broad_reaches m rest pre : forall skip,
  (skip <= String.length pre)%nat ->
  exists x,
    replaceFrom Substitution.prefixNoCase spongePath m skip
      (pre +:+ spongePath +:+ rest)
    = x +:+ m +:+ replaceFrom Substitution.prefixNoCase spongePath m 0 rest.
Proof.
  induction pre as [|c p IH]; intros skip Hs.
  - simpl in Hs. assert (skip = 0) as -> by lia.
    exists EmptyString.
    change (EmptyString +:+ spongePath +:+ rest) with (spongePath +:+ rest).
    rewrite replaceFrom_here; [reflexivity|apply prefixNoCase_self|reflexivity].
  - rewrite append_cons. destruct skip as [|k]; simpl.
    + destruct (Substitution.prefixNoCase spongePath
                  (String c (p +:+ spongePath +:+ rest))) eqn:Hp.
      * rewrite <- append_cons in Hp.
        apply spongePath_no_overlap_nocase in Hp. simpl in Hp.
        destruct (IH 24) as [x Hx]; [lia|].
        rewrite Hx. exists (m +:+ x). rewrite append_assoc. reflexivity.
      * destruct (IH 0) as [x Hx]; [lia|].
        rewrite Hx. exists (String c x). reflexivity.
    + simpl in Hs. destruct (IH k) as [x Hx]; [lia|].
      rewrite Hx. exists x. reflexivity.
Qed.

Lemma broad_after_pkg m post :
  Substitution.prefixNoCase "ithub.com/zhufuyi/sponge" post = false ->
  replaceFrom Substitution.prefixNoCase spongePath m 0 ("/pkg" +:+ post)
  = "/pkg" +:+ replaceFrom Substitution.prefixNoCase spongePath m 0 post.
Proof.
  intros Hpost.
  change ("/pkg" +:+ post)
    with (String "/" (String "p" (String "k" (String "g" post)))).
  assert (Hg : Substitution.prefixNoCase spongePath (String "g" post) = false).
  { unfold Substitution.prefixNoCase in *. simpl in *. exact Hpost. }
  destruct post as [|c post].
  - reflexivity.
  - cbn [replaceFrom]. rewrite Hg. reflexivity.
Qed.

End ModulePathRules.

(** *** Rules apart from a text leave its occurrences in place *)

Lemma clash_not_prefix x : forall y b,
  clash x y = true -> String.prefix x (y +:+ b) = false.
Proof.
  induction x as [|a x IH]; intros [|c y] b H; try discriminate H.
  rewrite append_cons. simpl in *.
  destruct (ascii_dec a c) as [->|Hn]; [|reflexivity].
  rewrite Ascii.eqb_refl in H. simpl in H. apply IH, H.
Qed.

Lemma tails_suffix u v :
  nonEmpty v = true -> In v (tails (u +:+ v)).
Proof.
  intros Hv. induction u as [|c u IH].
  - destruct v; [discriminate|]. left. reflexivity.
  - rewrite append_cons. right. exact IH.
Qed.

Lemma nonEmpty_mapBytes f s : nonEmpty (mapBytes f s) = nonEmpty s.
Proof. destruct s; reflexivity. Qed.

Lemma prefix_mapBytes h a : forall b,
  String.prefix a b = true ->
  String.prefix (mapBytes h a) (mapBytes h b) = true.
Proof.
  induction a as [|c a IH]; intros [|d b] H; simpl in *; try congruence.
  destruct (ascii_dec c d) as [->|Hn]; [|discriminate].
  destruct (ascii_dec (h d) (h d)); [apply IH, H|congruence].
Qed.

(** An occurrence of [o] that starts before [q] ends before it, when no
    end of [o] can start [q]. *)
Lemma prefix_reach q a : forall o b,
  forallb (fun w => clash w q) (tails o) = true ->
  String.prefix o (a +:+ q +:+ b) = true ->
  (String.length o <= String.length a)%nat.
Proof.
  induction a as [|c a IH]; intros [|d o] b Ht Hp; simpl; try lia.
  - cbn [tails forallb] in Ht. apply andb_true_iff in Ht as [Hc _].
    change (EmptyString +:+ q +:+ b) with (q +:+ b) in Hp.
    rewrite (clash_not_prefix _ _ _ Hc) in Hp. discriminate.
  - cbn [tails forallb] in Ht. apply andb_true_iff in Ht as [_ Ht].
    rewrite append_cons in Hp. simpl in Hp.
    destruct (ascii_dec d c); [|discriminate].
    specialize (IH o b Ht Hp). lia.
Qed.

Section Keeps.
Variables (isPrefix : string -> string -> bool) (old new p : string).
Hypothesis reach : forall a b,
  isPrefix old (a +:+ p +:+ b) = true ->
  (String.length old <= String.length a)%nat.
Hypothesis inside : forall u v b,
  p = u +:+ v -> nonEmpty v = true -> isPrefix old (v +:+ b) = false.

(** The scan copies the bytes of [p]: no occurrence of [old] starts
    there. *)
Lemma scan_inside v : forall u post,
  p = u +:+ v ->
  replaceFrom isPrefix old new 0 (v +:+ post)
  = v +:+ replaceFrom isPrefix old new 0 post.
Proof.
  induction v as [|c v IH]; intros u post Hp.
  - reflexivity.
  - pose proof (inside u (String c v) post Hp eq_refl) as Hi.
    rewrite append_cons in *. cbn [replaceFrom]. rewrite Hi.
    rewrite (append_cons c v). f_equal.
    apply (IH (u +:+ String c EmptyString)).
    rewrite append_assoc. exact Hp.
Qed.

(** The scan reaches [p] with nothing left to skip, and copies it. *)
Lemma scan_keeps post pre : forall skip,
  (skip <= String.length pre)%nat ->
  exists x,
    replaceFrom isPrefix old new skip (pre +:+ p +:+ post)
    = x +:+ p +:+ replaceFrom isPrefix old new 0 post.
Proof.
  induction pre as [|c pre IH]; intros skip Hs.
  - simpl in Hs. assert (skip = 0%nat) as -> by lia.
    exists EmptyString.
    change (EmptyString +:+ p +:+ post) with (p +:+ post).
    rewrite (scan_inside p EmptyString post eq_refl). reflexivity.
  - rewrite append_cons. destruct skip as [|k]; cbn [replaceFrom].
    + destruct (isPrefix old (String c (pre +:+ p +:+ post))) eqn:Hm.
      * rewrite <- append_cons in Hm. apply reach in Hm. simpl in Hm.
        destruct (IH (String.length old - 1)%nat) as [x Hx]; [lia|].
        rewrite Hx. exists (new +:+ x). rewrite append_assoc. reflexivity.
      * destruct (IH 0%nat) as [x Hx]; [lia|].
        rewrite Hx. exists (String c x). reflexivity.
    + simpl in Hs. destruct (IH k) as [x Hx]; [lia|].
      rewrite Hx. exists x. reflexivity.
Qed.

End Keeps.

Lemma apart_reach old p a b :
  nonEmpty old = true -> apart old p = true ->
  Substitution.prefixNoCase old (a +:+ p +:+ b) = true ->
  (String.length old <= String.length a)%nat.
Proof.
  unfold apart, Substitution.prefixNoCase. intros -> H Hp. simpl in H.
  apply andb_true_iff in H as [_ H].
  rewrite !mapBytes_app in Hp.
  apply (prefix_reach _ _ _ _ H) in Hp.
  rewrite !mapBytes_length in Hp. exact Hp.
Qed.

Lemma apart_inside old p u v b :
  nonEmpty old = true -> apart old p = true ->
  p = u +:+ v -> nonEmpty v = true ->
  Substitution.prefixNoCase old (v +:+ b) = false.
Proof.
  unfold apart, Substitution.prefixNoCase. intros -> H -> Hv. simpl in H.
  apply andb_true_iff in H as [H _].
  rewrite mapBytes_app in *.
  apply clash_not_prefix.
  apply (proj1 (forallb_forall _ _) H).
  apply tails_suffix. rewrite nonEmpty_mapBytes. exact Hv.
Qed.

Lemma prefix_prefixNoCase old s :
  String.prefix old s = true -> Substitution.prefixNoCase old s = true.
Proof. apply prefix_mapBytes. Qed.

(** A rule whose search text is apart from [p] leaves an occurrence of [p]
    where it is. *)
Lemma applyField_keeps f p pre post :
  apart (Old f) p = true ->
  exists x y, Substitution.applyField f (pre +:+ p +:+ post) = x +:+ p +:+ y.
Proof.
  intros Ha. unfold Substitution.applyField.
  destruct (nonEmpty (Old f)) eqn:Hne; [|exists pre, post; reflexivity].
  destruct (scan_keeps (Substitution.matcher f) (Old f) (New f) p) with
    (post := post) (pre := pre) (skip := 0%nat) as [x Hx].
  - intros a b Hm. apply (apart_reach _ p a b Hne Ha).
    unfold Substitution.matcher in Hm.
    destruct (IsCaseSensitive f); [apply prefix_prefixNoCase|]; exact Hm.
  - intros u v b Hp Hv.
    pose proof (apart_inside _ _ u v b Hne Ha Hp Hv) as Hi.
    unfold Substitution.matcher.
    destruct (IsCaseSensitive f); [|exact Hi].
    destruct (String.prefix (Old f) (v +:+ b)) eqn:E; [|reflexivity].
    apply prefix_prefixNoCase in E. congruence.
  - lia.
  - rewrite Hx. eauto.
Qed.

Lemma applyFields_keep p l : forall s,
  Forall (fun f => apart (Old f) p = true) l ->
  (exists x y, s = x +:+ p +:+ y) ->
  exists x y, Substitution.applyFields l s = x +:+ p +:+ y.
Proof.
  induction l as [|f l IH]; intros s Hl [x [y ->]]; [eauto|].
  inversion Hl as [|? ? Hf Hl']; subst.
  change (Substitution.applyFields (f :: l) (x +:+ p +:+ y))
    with (Substitution.applyFields l
            (Substitution.applyField f (x +:+ p +:+ y))).
  apply IH; [exact Hl'|]. apply applyField_keeps, Hf.
Qed.

Section RestoreLibraryPath.
Context `{T : Template}.

Lemma applyFields_app l1 l2 content :
  Substitution.applyFields (l1 ++ l2) content
  = Substitution.applyFields l2 (Substitution.applyFields l1 content).
Proof. unfold Substitution.applyFields. apply fold_left_app. Qed.

Lemma nonEmpty_app_pkg m : nonEmpty (m +:+ "/pkg") = true.
Proof. destruct m; reflexivity. Qed.

(** None of the rules listed after the version rule can touch an
    occurrence of the library path. *)
Lemma later_rules_apart g n :
  Forall (fun f => apart (Old f) spongePkgPath = true)
         (tl (rpcGenerator.fieldsAfter g n)).
Proof.
  unfold rpcGenerator.fieldsAfter, rpcGenerator.errorCodeField, field.
  cbn [tl]. repeat constructor.
Qed.

(** The two module-path rules, applied in their order to content that
    holds the library path, leave the library path in the result, unless
    the path is directly followed by the rest of a module-path prefix. *)
Lemma broad_then_narrow_occurrence g pre post :
  Substitution.prefixNoCase "ithub.com/zhufuyi/sponge" post = false ->
  exists x y,
    Substitution.applyField (rpcGenerator.narrowField g)
      (Substitution.applyField (rpcGenerator.broadField g)
         (pre +:+ spongePkgPath +:+ post))
    = x +:+ spongePkgPath +:+ y.
Proof.
  intros Hpost.
  unfold Substitution.applyField, rpcGenerator.narrowField,
    rpcGenerator.broadField, field, Substitution.matcher.
  cbn [Old New IsCaseSensitive]. rewrite nonEmpty_app_pkg.
  change (nonEmpty "github.com/zhufuyi/sponge") with true. cbv iota.
  change "github.com/zhufuyi/sponge" with spongePath.
  change "github.com/zhufuyi/sponge/pkg" with spongePkgPath.
  change spongePkgPath with (spongePath +:+ "/pkg") at 2.
  rewrite (append_assoc spongePath "/pkg" post).
  destruct (broad_reaches (rpcGenerator.moduleName g) ("/pkg" +:+ post) pre 0)
    as [x Hx]; [lia|].
  rewrite Hx, (broad_after_pkg _ _ Hpost).
  rewrite <- (append_assoc (rpcGenerator.moduleName g) "/pkg").
  apply (replaceFrom_occurrence Substitution.prefixNoCase
              (rpcGenerator.moduleName g +:+ "/pkg") spongePkgPath
              (prefixNoCase_self _) x
              (replaceFrom Substitution.prefixNoCase spongePath
                 (rpcGenerator.moduleName g) 0 post)
              (nonEmpty_app_pkg _)).
Qed.

(** The content as the rules before the module-path rule leave it decides:
    if it holds the library path, not directly followed by the rest of a
    module-path prefix, the whole list leaves the library path in the
    result. *)
Lemma restored_after_the_earlier_rules g r n content pre post :
  Substitution.applyFields (rpcGenerator.fieldsBefore g r) content
  = pre +:+ spongePkgPath +:+ post ->
  Substitution.prefixNoCase "ithub.com/zhufuyi/sponge" post = false ->
  apart spongeTemplateVersionMark spongePkgPath = true ->
  contains (Substitution.applyFields (rpcGenerator.addFields g r n) content)
           spongePkgPath = true.
Proof.
  intros Hbefore Hpost Hmark.
  unfold rpcGenerator.addFields.
  rewrite applyFields_app, Hbefore, applyFields_app.
  destruct (applyFields_keep spongePkgPath (rpcGenerator.fieldsAfter g n)
              (Substitution.applyFields
                 [rpcGenerator.broadField g; rpcGenerator.narrowField g]
                 (pre +:+ spongePkgPath +:+ post))) as [x [y ->]].
  - pose proof (later_rules_apart g n) as Hl.
    unfold rpcGenerator.fieldsAfter in *. cbn [tl] in Hl.
    constructor; [exact Hmark|exact Hl].
  - apply broad_then_narrow_occurrence, Hpost.
  - apply contains_app.
Qed.

(** C7, amended. In the field list of the rpc pass the rule that rewrites
    [github.com/zhufuyi/sponge] to the module name is immediately followed
    by the rule that rewrites the module name with [/pkg] back to
    [github.com/zhufuyi/sponge/pkg], and none of the rules listed after
    them with a literal search text can touch an occurrence of the library
    path. Applying the whole list to content leaves the library path in
    the result whenever the content, as the rules listed before the
    module-path rule leave it, holds the library path not directly followed
    by the rest of a module-path prefix ([ithub.com/zhufuyi/sponge], in any
    case), and the version mark of the template shares no text with the
    library path. In particular it does so whenever the content itself
    holds the library path followed by a text [t] that cannot start the rest
    of a module-path prefix, and no rule listed before the module-path rule
    can touch that occurrence of the path with [t]. *)
Theorem module_path_rules_restore_library_path g r n :
  rpcGenerator.addFields g r n
  = rpcGenerator.fieldsBefore g r
    ++ rpcGenerator.broadField g :: rpcGenerator.narrowField g
    :: rpcGenerator.fieldsAfter g n /\
  rpcGenerator.broadField g = field spongePath (rpcGenerator.moduleName g) /\
  rpcGenerator.narrowField g
  = field (rpcGenerator.moduleName g +:+ "/pkg") spongePkgPath /\
  Forall (fun f => apart (Old f) spongePkgPath = true)
         (tl (rpcGenerator.fieldsAfter g n)) /\
  (forall content pre post,
    Substitution.applyFields (rpcGenerator.fieldsBefore g r) content
    = pre +:+ spongePkgPath +:+ post ->
    Substitution.prefixNoCase "ithub.com/zhufuyi/sponge" post = false ->
    apart spongeTemplateVersionMark spongePkgPath = true ->
    contains (Substitution.applyFields (rpcGenerator.addFields g r n) content)
             spongePkgPath = true) /\
  (forall content pre t post,
    content = pre +:+ spongePkgPath +:+ t +:+ post ->
    (forall y,
        Substitution.prefixNoCase "ithub.com/zhufuyi/sponge" (t +:+ y)
        = false) ->
    Forall (fun f => apart (Old f) (spongePkgPath +:+ t) = true)
           (rpcGenerator.fieldsBefore g r) ->
    apart spongeTemplateVersionMark spongePkgPath = true ->
    contains (Substitution.applyFields (rpcGenerator.addFields g r n) content)
             spongePkgPath = true).
Proof.
  split; [reflexivity|]. split; [reflexivity|]. split; [reflexivity|].
  split; [apply later_rules_apart|].
  split; [intros content pre post; apply restored_after_the_earlier_rules|].
  intros content pre t post -> Ht Hbefore Hmark.
  destruct (applyFields_keep (spongePkgPath +:+ t)
              (rpcGenerator.fieldsBefore g r)
              (pre +:+ spongePkgPath +:+ t +:+ post) Hbefore) as [x [y Hc]].
  { exists pre, post. rewrite (append_assoc spongePkgPath t post). reflexivity. }
  rewrite (append_assoc spongePkgPath t y) in Hc.
  exact (restored_after_the_earlier_rules g r n _ x (t +:+ y) Hc (Ht y) Hmark).
Qed.

End RestoreLibraryPath.

(** A line of an ordinary template file keeps its library import, while
    the example type and server name are rewritten by the later rules; so
    does a line that comes after a mark an earlier rule replaces. *)
Lemma module_path_rules_restore_library_path_witness :
  Substitution.applyFields
    (rpcGenerator.addFields (T:=Demo.template) fooGenerator Demo.emptyReplacer 7)
    templateContent
  = "import github.com/zhufuyi/sponge/pkg/ginx; type user struct; srv" /\
  contains
    (Substitution.applyFields
       (rpcGenerator.addFields (T:=Demo.template) fooGenerator
          Demo.emptyReplacer 7) templateContent)
    spongePkgPath = true /\
  contains
    (Substitution.applyFields
       (rpcGenerator.addFields (T:=Demo.template) fooGenerator
          Demo.emptyReplacer 7) markedContent)
    spongePkgPath = true.
Proof.
  split; [vm_compute; reflexivity|]. split.
  - apply (proj2 (proj2 (proj2 (proj2 (proj2
      (module_path_rules_restore_library_path (T:=Demo.template)
         fooGenerator Demo.emptyReplacer 7)))))
      templateContent
      "import " "/" "ginx; type UserExample struct; serverNameExample").
    + vm_compute. reflexivity.
    + intros y. reflexivity.
    + unfold rpcGenerator.fieldsBefore. cbn.
      repeat (constructor; [vm_compute; reflexivity|]). constructor.
    + vm_compute. reflexivity.
  - apply (proj1 (proj2 (proj2 (proj2 (proj2
      (module_path_rules_restore_library_path (T:=Demo.template)
         fooGenerator Demo.emptyReplacer 7)))))
      markedContent " import " "/ginx; serverNameExample");
      vm_compute; reflexivity.
Defined.

(** * Further properties of the commands *)

(** ** The table list *)

Lemma concat_cons_cons sep x y l :
  String.concat sep (x :: y :: l) = x +:+ sep +:+ String.concat sep (y :: l).
Proof. reflexivity. Qed.

Lemma SplitComma_cons c s :
  SplitComma (String c s)
  = if Ascii.eqb c ","%char then EmptyString :: SplitComma s
    else match SplitComma s with
         | hd :: tl => String c hd :: tl
         | [] => [String c EmptyString]
         end.
Proof. reflexivity. Qed.

(** X1. The table list of [--db-table] is never empty: the rpc command takes
    the text before the first comma as the primary table and the remaining
    entries, in order, as secondary tables; the entries joined with commas
    give the flag back, and no entry holds a comma. *)
Theorem table_list_splits_at_commas (s : string) :
  exists t ts,
    SplitComma s = t :: ts /\
    RPCCommand.splitTables (SplitComma s) = (t, ts) /\
    String.concat "," (t :: ts) = s /\
    Forall (fun entry => contains entry "," = false) (t :: ts).
Proof.
  assert (H : exists t ts,
             SplitComma s = t :: ts /\
             String.concat "," (t :: ts) = s /\
             Forall (fun entry => contains entry "," = false) (t :: ts)).
  { induction s as [|c s IH].
    - exists EmptyString, []. repeat split. repeat constructor.
    - destruct IH as [t [ts [Hs [Hj Hc]]]]. rewrite SplitComma_cons, Hs.
      destruct (Ascii.eqb c ","%char) eqn:Hc0.
      + apply Ascii.eqb_eq in Hc0. subst c.
        exists EmptyString, (t :: ts). split; [reflexivity|]. split.
        * rewrite concat_cons_cons, Hj. reflexivity.
        * constructor; [reflexivity|exact Hc].
      + apply Ascii.eqb_neq in Hc0.
        exists (String c t), ts. split; [reflexivity|]. split.
        * destruct ts as [|u ts].
          -- simpl in *. rewrite Hj. reflexivity.
          -- rewrite concat_cons_cons in *. rewrite <- Hj. reflexivity.
        * inversion Hc as [|? ? Ht Hts]; subst. constructor; [|exact Hts].
          change (contains (String c t) ",")
            with (String.prefix "," (String c t) || contains t ",").
          rewrite Ht, orb_false_r. cbv [String.prefix].
          destruct (ascii_dec "," c) as [E|E]; [congruence|reflexivity]. }
  destruct H as [t [ts [Hs [Hj Hc]]]]. exists t, ts.
  split; [exact Hs|]. split; [|split; assumption].
  rewrite Hs. destruct ts; reflexivity.
Qed.

(** ** The traces of the model and rpc commands *)

Section Traces.
Context `{T : Template} `{C : Collaborators}.

Lemma model_addFields_holdsCodes codes o r0 r :
  replacementFields r = modelGenerator.addFields (modelGenerator.mk codes o) r0 ->
  holdsCodes codes r.
Proof.
  intros H. unfold holdsCodes. rewrite H.
  unfold modelGenerator.addFields. simpl.
  split; apply elem_of_app; right;
    repeat (apply elem_of_cons; first [left; reflexivity | right]).
Qed.

Lemma rpc_addFields_holdsCodes g r0 n r :
  replacementFields r = rpcGenerator.addFields g r0 n ->
  holdsCodes (rpcGenerator.codes g) r /\
  holdsIdentity (rpcGenerator.moduleName g) (rpcGenerator.serverName g) r.
Proof.
  intros H. unfold holdsCodes, holdsIdentity. rewrite H.
  unfold rpcGenerator.addFields.
  repeat split.
  - apply elem_of_app. left. unfold rpcGenerator.fieldsBefore.
    repeat (apply elem_of_app; right).
    repeat (apply elem_of_cons; first [left; reflexivity | right]).
  - apply elem_of_app. right. apply elem_of_app. right.
    unfold rpcGenerator.fieldsAfter.
    repeat (apply elem_of_cons; first [left; reflexivity | right]).
  - apply elem_of_app. right. apply elem_of_app. left.
    apply elem_of_cons. left. reflexivity.
  - apply elem_of_app. right. apply elem_of_app. right.
    unfold rpcGenerator.fieldsAfter.
    repeat (apply elem_of_cons; first [left; reflexivity | right]).
Qed.

(** What the model pass does, case by case. *)
Lemma model_pass_cases codes o st :
  (Replacers (env st) !! TplNameSponge = None /\
   modelGenerator.generateCode (modelGenerator.mk codes o) st
   = (st, Err "replacer is nil")) \/
  (exists r st',
      (holdsCodes codes r /\ modelScope r) /\
      log st' = log st ++ [EvSaveFiles r None] /\
      modelGenerator.generateCode (modelGenerator.mk codes o) st
      = (st', Ok (replacer.GetOutputDir r))) \/
  (exists r e st',
      (holdsCodes codes r /\ modelScope r) /\
      log st' = log st ++ [EvSaveFiles r (Some e)] /\
      modelGenerator.generateCode (modelGenerator.mk codes o) st = (st', Err e)).
Proof.
  unfold modelGenerator.generateCode. unfold_monad. simpl.
  destruct (Replacers (env st) !! TplNameSponge) as [r0|]; [|left; auto].
  right.
  match goal with |- context [SaveFiles ?r ?e] =>
    assert (Hc : holdsCodes codes r /\ modelScope r)
      by (split; [eapply model_addFields_holdsCodes; reflexivity
                 |repeat split]);
    destruct (SaveFiles r e) as [e' [err|]] end; simpl.
  - right. eexists _, _, _. refine (conj Hc (conj _ eq_refl)). reflexivity.
  - left. eexists _, _. refine (conj Hc (conj _ eq_refl)). reflexivity.
Qed.

(** What the loop body of the model command does, case by case. *)
Lemma tableBody_cases t a o st :
  (exists st' err,
      log st' = log st ++ [EvGenerate (modelCallArgs t a) (Err err)] /\
      ModelCommand.tableBody t a o st = (st', Err err)) \/
  (exists codes st',
      log st' = log st ++ [EvGenerate (modelCallArgs t a) (Ok codes)] /\
      ModelCommand.tableBody t a o st = (st', Err "replacer is nil")) \/
  (exists codes r a' st',
      (holdsCodes codes r /\ modelScope r) /\
      log st' = log st ++ [EvGenerate (modelCallArgs t a) (Ok codes);
                           EvSaveFiles r None] /\
      ModelCommand.tableBody t a o st = (st', Ok (a', replacer.GetOutputDir r))) \/
  (exists codes r e st',
      (holdsCodes codes r /\ modelScope r) /\
      log st' = log st ++ [EvGenerate (modelCallArgs t a) (Ok codes);
                           EvSaveFiles r (Some e)] /\
      ModelCommand.tableBody t a o st = (st', Err e)).
Proof.
  destruct (ModelCommand.tableBody t a o st) as [st2 res] eqn:HB.
  unfold ModelCommand.tableBody in HB. fold (modelCallArgs t a) in HB.
  unfold bind at 1, callGenerate in HB.
  destruct (Generate (modelCallArgs t a) (env st)) as [[a1 e1] [codes|err]].
  - right. unfold bind in HB. cbv beta iota zeta in HB.
    destruct (model_pass_cases codes o
                (mkState e1 (log st ++ [EvGenerate (modelCallArgs t a) (Ok codes)])))
      as [[_ Hp]|[[r [st' [Hc [Hl Hp]]]]|[r [e [st' [Hc [Hl Hp]]]]]]];
      rewrite Hp in HB; injection HB as <- <-.
    + left. eexists _, _. split; [|reflexivity]. reflexivity.
    + right. left. exists codes, r, a1, st'. split; [exact Hc|].
      split; [|reflexivity]. rewrite Hl. simpl. rewrite <- app_assoc.
      reflexivity.
    + right. right. exists codes, r, e, st'. split; [exact Hc|].
      split; [|reflexivity]. rewrite Hl. simpl. rewrite <- app_assoc.
      reflexivity.
  - left. injection HB as <- <-. eexists _, _. split; [|reflexivity].
    reflexivity.
Qed.

Lemma tableLoop_trace ts : forall a o st,
  exists evs res,
    modelTrace o (List.filter nonEmpty ts) evs res /\
    log (fst (ModelCommand.tableLoop ts a o st)) = log st ++ evs /\
    match snd (ModelCommand.tableLoop ts a o st) with
    | Ok (_, o') => res = Ok o'
    | Err e => res = Err e
    end.
Proof.
  induction ts as [|t ts IH]; intros a o st.
  - exists [], (Ok o). simpl. rewrite app_nil_r. repeat split. constructor.
  - simpl. destruct (nonEmpty t) eqn:Ht; simpl; [|apply IH].
    unfold bind.
    destruct (tableBody_cases t a o st)
      as [[st' [err [Hl Hb]]]
         |[[codes [st' [Hl Hb]]]
          |[[codes [r [a' [st' [[Hc Hsc] [Hl Hb]]]]]]
           |[codes [r [e [st' [[Hc Hsc] [Hl Hb]]]]]]]]];
      rewrite Hb; simpl.
    + exists [EvGenerate (modelCallArgs t a) (Err err)], (Err err).
      split; [apply modelTrace_no_codes; reflexivity|]. split; auto.
    + exists [EvGenerate (modelCallArgs t a) (Ok codes)], (Err "replacer is nil").
      split; [apply modelTrace_no_replacer; reflexivity|]. split; auto.
    + destruct (IH a' (replacer.GetOutputDir r) st')
        as [evs [res [Htr [Hlog Hres]]]].
      exists (EvGenerate (modelCallArgs t a) (Ok codes)
              :: EvSaveFiles r None :: evs), res.
      split; [eapply modelTrace_table; eauto; reflexivity|].
      split; [|exact Hres].
      rewrite Hlog, Hl, <- app_assoc. reflexivity.
    + exists [EvGenerate (modelCallArgs t a) (Ok codes); EvSaveFiles r (Some e)],
        (Err e).
      split; [eapply modelTrace_not_saved; eauto; reflexivity|]. split; auto.
Qed.

(** X2. Every run of the model command makes, for each non-empty entry of
    the table list in listed order, one schema-to-code call for that table
    followed by one [SaveFiles] on a replacer that is scoped to
    [internal/model] without its init files and whose rules carry the model
    code and the table name that call returned. A step that fails ends the
    run with its error and nothing is printed; a run that succeeds then
    prints the help text and the success message, which names the output
    directory of the last pass, or the [--out] flag when no table was
    generated. *)
Theorem model_command_trace f e :
  exists evs res,
    modelTrace (ModelCommand.outPath f)
      (List.filter nonEmpty (SplitComma (ModelCommand.dbTables f))) evs res /\
    match res with
    | Ok o =>
        snd (run (ModelCommand.RunE f) e) = Ok tt /\
        log (fst (run (ModelCommand.RunE f) e))
        = evs ++ [EvPrint ModelCommand.helpText; EvPrint (modelSuccess o)]
    | Err err =>
        snd (run (ModelCommand.RunE f) e) = Err err /\
        log (fst (run (ModelCommand.RunE f) e)) = evs
    end.
Proof.
  unfold run. rewrite ModelCommand_RunE_stages.
  destruct (tableLoop_trace (SplitComma (ModelCommand.dbTables f))
              (ModelCommand.sqlArgs f) (ModelCommand.outPath f)
              (mkState e [])) as [evs [res [Htr [Hlog Hres]]]].
  exists evs, res. split; [exact Htr|].
  destruct (ModelCommand.tableLoop _ _ _ _) as [st1 [[a1 o1]|err]];
    simpl in *; subst res; simpl; rewrite Hlog; auto.
Qed.

(** What the rpc pass does, case by case. *)
Lemma rpc_pass_cases g st :
  (exists err, rpcGenerator.generateCode g st = (st, Err err)) \/
  (exists r st',
      holdsCodes (rpcGenerator.codes g) r /\
      holdsIdentity (rpcGenerator.moduleName g) (rpcGenerator.serverName g) r /\
      log st' = log st ++ [EvSaveFiles r None] /\
      rpcGenerator.generateCode g st = (st', Ok (replacer.GetOutputDir r))) \/
  (exists r e st',
      holdsCodes (rpcGenerator.codes g) r /\
      holdsIdentity (rpcGenerator.moduleName g) (rpcGenerator.serverName g) r /\
      log st' = log st ++ [EvSaveFiles r (Some e)] /\
      rpcGenerator.generateCode g st = (st', Err e)).
Proof.
  unfold rpcGenerator.generateCode. unfold_monad. simpl.
  destruct (Replacers (env st) !! TplNameSponge) as [r0|]; [|left; eauto].
  destruct (rpcGenerator.selectIgnoreFiles _) as [ign|e]; [|left; eauto].
  right. destruct (Intn 100 (env st)) as [n e1]. simpl.
  match goal with |- context [SaveFiles ?r ?e] =>
    assert (Hc : holdsCodes (rpcGenerator.codes g) r /\
                 holdsIdentity (rpcGenerator.moduleName g)
                   (rpcGenerator.serverName g) r)
      by (eapply rpc_addFields_holdsCodes; reflexivity);
    destruct (SaveFiles r e) as [e' [err|]] end; simpl; destruct Hc as [Hc Hi].
  - right. eexists _, _, _. refine (conj Hc (conj Hi (conj _ eq_refl))).
    reflexivity.
  - left. eexists _, _. refine (conj Hc (conj Hi (conj _ eq_refl))).
    reflexivity.
Qed.

(** What the rpc command does for its primary table, case by case. *)
Lemma primaryPass_cases f st :
  let sn := snd (convertProjectAndServerName (RPCCommand.projectName f)
                   (RPCCommand.serverName f)) in
  (exists st' err,
      log st' = log st ++ [EvGenerate (primaryCallArgs f) (Err err)] /\
      RPCCommand.primaryPass f st = (st', Err err)) \/
  (exists codes st' err,
      log st' = log st ++ [EvGenerate (primaryCallArgs f) (Ok codes)] /\
      RPCCommand.primaryPass f st = (st', Err err)) \/
  (exists codes r err st',
      holdsCodes codes r /\ holdsIdentity (RPCCommand.moduleName f) sn r /\
      log st' = log st ++ [EvGenerate (primaryCallArgs f) (Ok codes);
                           EvSaveFiles r (Some err)] /\
      RPCCommand.primaryPass f st = (st', Err err)) \/
  (exists codes r a' st',
      holdsCodes codes r /\ holdsIdentity (RPCCommand.moduleName f) sn r /\
      log st' = log st ++ [EvGenerate (primaryCallArgs f) (Ok codes);
                           EvSaveFiles r None] /\
      RPCCommand.primaryPass f st
      = (st', Ok (sn, a', replacer.GetOutputDir r))).
Proof.
  intros sn. subst sn.
  destruct (RPCCommand.primaryPass f st) as [st2 res] eqn:HB.
  unfold RPCCommand.primaryPass in HB.
  destruct (convertProjectAndServerName _ _) as [pn sn]. simpl.
  fold (primaryCallArgs f) in HB.
  unfold bind at 1, callGenerate in HB.
  destruct (Generate (primaryCallArgs f) (env st)) as [[a1 e1] [codes|err]].
  - right. unfold bind in HB. cbv beta iota zeta in HB.
    match type of HB with context [rpcGenerator.generateCode ?g ?s] =>
      destruct (rpc_pass_cases g s)
        as [[err Hp]|[[r [st' [Hc [Hi [Hl Hp]]]]]|[r [e [st' [Hc [Hi [Hl Hp]]]]]]]];
      rewrite Hp in HB; injection HB as <- <- end; simpl in *.
    + left. eexists _, _, _. split; [|reflexivity]. reflexivity.
    + right. right. exists codes, r, a1, st'. split; [exact Hc|].
      split; [exact Hi|]. split; [|reflexivity].
      rewrite Hl. simpl. rewrite <- app_assoc. reflexivity.
    + right. left. exists codes, r, e, st'. split; [exact Hc|].
      split; [exact Hi|]. split; [|reflexivity].
      rewrite Hl. simpl. rewrite <- app_assoc. reflexivity.
  - left. injection HB as <- <-. eexists _, _. split; [|reflexivity].
    reflexivity.
Qed.

(** What the loop body of the rpc command does, case by case. *)
Lemma serviceBody_cases m sn t a o st :
  (exists st' err,
      log st' = log st ++ [EvGenerate (setDBTable t a) (Err err)] /\
      RPCCommand.serviceBody m sn t a o st = (st', Err err)) \/
  (exists codes sg err st',
      serviceGenerator.moduleName sg = m /\ serviceGenerator.serverName sg = sn /\
      serviceGenerator.codes sg = codes /\ serviceGenerator.outPath sg = o /\
      log st' = log st ++ [EvGenerate (setDBTable t a) (Ok codes);
                           EvServicePass sg (Err err)] /\
      RPCCommand.serviceBody m sn t a o st = (st', Err err)) \/
  (exists codes sg p a' st',
      serviceGenerator.moduleName sg = m /\ serviceGenerator.serverName sg = sn /\
      serviceGenerator.codes sg = codes /\ serviceGenerator.outPath sg = o /\
      log st' = log st ++ [EvGenerate (setDBTable t a) (Ok codes);
                           EvServicePass sg (Ok p)] /\
      RPCCommand.serviceBody m sn t a o st = (st', Ok (a', p))).
Proof.
  destruct (RPCCommand.serviceBody m sn t a o st) as [st2 res] eqn:HB.
  unfold RPCCommand.serviceBody in HB. unfold_monad.
  destruct (Generate (setDBTable t a) (env st)) as [[a1 e1] [codes|err]];
    simpl in HB.
  - right.
    match type of HB with context [serviceGenerateCode ?sg ?e] =>
      destruct (serviceGenerateCode sg e) as [e2 [p|err]] end;
      injection HB as <- <-; simpl.
    + right.
      eexists codes,
        (serviceGenerator.mk m sn (DBDriver a1) (IsEmbed a1) codes o), p, a1, _.
      refine (conj _ (conj _ (conj _ (conj _ (conj _ eq_refl)))));
        first [reflexivity | simpl; rewrite <- app_assoc; reflexivity].
    + left.
      eexists codes,
        (serviceGenerator.mk m sn (DBDriver a1) (IsEmbed a1) codes o), err, _.
      refine (conj _ (conj _ (conj _ (conj _ (conj _ eq_refl)))));
        first [reflexivity | simpl; rewrite <- app_assoc; reflexivity].
  - left. injection HB as <- <-. eexists _, _. split; [|reflexivity].
    reflexivity.
Qed.

Lemma serviceLoop_trace m sn ts : forall a o st,
  exists evs res,
    serviceTrace m sn o (List.filter nonEmpty ts) evs res /\
    log (fst (RPCCommand.serviceLoop m sn ts a o st)) = log st ++ evs /\
    match snd (RPCCommand.serviceLoop m sn ts a o st) with
    | Ok (_, o') => res = Ok o'
    | Err e => res = Err e
    end.
Proof.
  induction ts as [|t ts IH]; intros a o st.
  - exists [], (Ok o). simpl. rewrite app_nil_r. repeat split. constructor.
  - simpl. destruct (nonEmpty t) eqn:Ht; simpl; [|apply IH].
    unfold bind.
    destruct (serviceBody_cases m sn t a o st)
      as [[st' [err [Hl Hb]]]
         |[[codes [sg [err [st' [H1 [H2 [H3 [H4 [Hl Hb]]]]]]]]]
          |[codes [sg [p [a' [st' [H1 [H2 [H3 [H4 [Hl Hb]]]]]]]]]]]];
      rewrite Hb; simpl.
    + exists [EvGenerate (setDBTable t a) (Err err)], (Err err).
      split; [apply serviceTrace_no_codes; reflexivity|]. split; auto.
    + exists [EvGenerate (setDBTable t a) (Ok codes); EvServicePass sg (Err err)],
        (Err err).
      split; [apply serviceTrace_failed; auto|]. split; auto.
    + destruct (IH a' p st') as [evs [res [Htr [Hlog Hres]]]].
      exists (EvGenerate (setDBTable t a) (Ok codes)
              :: EvServicePass sg (Ok p) :: evs), res.
      split; [eapply serviceTrace_table; eauto; reflexivity|].
      split; [|exact Hres].
      rewrite Hlog, Hl, <- app_assoc. reflexivity.
Qed.

(** X3. Every run of the rpc command starts with the schema-to-code call
    for the primary table; if that call and the primary pass succeed, the
    pass has called [SaveFiles] once, on a replacer whose rules carry the
    codes of the call, the module name of the flag and the converted server
    name. Then, for each non-empty secondary entry in listed order, comes one
    schema-to-code call for that table followed by one service pass with the
    same module and server name, the codes of its own call and the output
    path the pass before it returned. A step that fails ends the run with
    its error: nothing is printed and [generateConfigmap] is not called. A
    run that succeeds prints the help text and the success message and calls
    [generateConfigmap] once, last, all with the converted server name and
    the output path the last pass returned. *)
Theorem rpc_command_trace f e :
  let m := RPCCommand.moduleName f in
  let sn := snd (convertProjectAndServerName (RPCCommand.projectName f)
                   (RPCCommand.serverName f)) in
  let ts := List.filter nonEmpty
              (snd (RPCCommand.splitTables (SplitComma (RPCCommand.dbTables f)))) in
  let final := run (RPCCommand.RunE f) e in
  (exists err,
      snd final = Err err /\
      log (fst final) = [EvGenerate (primaryCallArgs f) (Err err)]) \/
  (exists codes err,
      snd final = Err err /\
      log (fst final) = [EvGenerate (primaryCallArgs f) (Ok codes)]) \/
  (exists codes r err,
      holdsCodes codes r /\ holdsIdentity m sn r /\
      snd final = Err err /\
      log (fst final) = [EvGenerate (primaryCallArgs f) (Ok codes);
                         EvSaveFiles r (Some err)]) \/
  (exists codes r evs res,
      holdsCodes codes r /\ holdsIdentity m sn r /\
      serviceTrace m sn (replacer.GetOutputDir r) ts evs res /\
      match res with
      | Ok o =>
          snd final = Ok tt /\
          log (fst final)
          = EvGenerate (primaryCallArgs f) (Ok codes) :: EvSaveFiles r None
            :: evs ++ [EvPrint RPCCommand.helpText; EvPrint (rpcSuccess sn o);
                       EvConfigmap sn o]
      | Err err =>
          snd final = Err err /\
          log (fst final)
          = EvGenerate (primaryCallArgs f) (Ok codes) :: EvSaveFiles r None
            :: evs
      end).
Proof.
  intros m sn ts final. subst final. unfold run.
  rewrite RPCCommand_RunE_stages.
  destruct (primaryPass_cases f (mkState e []))
    as [[st' [err [Hl Hb]]]
       |[[codes [st' [err [Hl Hb]]]]
        |[[codes [r [err [st' [Hc [Hi [Hl Hb]]]]]]]
         |[codes [r [a' [st' [Hc [Hi [Hl Hb]]]]]]]]]];
    rewrite Hb; simpl in Hl |- *.
  - left. eauto.
  - right. left. eauto.
  - right. right. left. exists codes, r, err. auto.
  - right. right. right.
    destruct (serviceLoop_trace m sn
                (snd (RPCCommand.splitTables (SplitComma (RPCCommand.dbTables f))))
                a' (replacer.GetOutputDir r) st')
      as [evs [res [Htr [Hlog Hres]]]].
    exists codes, r, evs, res. split; [exact Hc|]. split; [exact Hi|].
    split; [exact Htr|].
    fold m sn in Hlog, Hres |- *.
    destruct (RPCCommand.serviceLoop m sn _ a' _ st') as [st2 [[a2 o2]|err]];
      simpl in *; subst res; simpl; rewrite ?Hlog, ?Hl; simpl.
    + split; reflexivity.
    + auto.
Qed.

End Traces.

(** ** A table list without tables *)

Section NoTables.
Context `{T : Template} `{C : Collaborators}.

Lemma filter_nonEmpty_all_empty ts :
  Forall (fun t => t = EmptyString) ts -> List.filter nonEmpty ts = [].
Proof.
  induction 1 as [|t ts Ht _ IH]; [reflexivity|]. subst t. simpl. exact IH.
Qed.

(** X4. When every entry of the table list is empty (as with
    [--db-table=] or [--db-table=,,]), the model command calls no
    collaborator and leaves the environment as it is, yet returns without
    error and prints the help text and the success message, naming the
    [--out] flag as it was given. *)
Theorem model_command_without_tables f st :
  Forall (fun t => t = EmptyString) (SplitComma (ModelCommand.dbTables f)) ->
  ModelCommand.RunE f st = (modelEpilogue (ModelCommand.outPath f) st, Ok tt).
Proof.
  intros Hts. rewrite ModelCommand_RunE_stages, tableLoop_skips_empty.
  rewrite (filter_nonEmpty_all_empty _ Hts). reflexivity.
Qed.

End NoTables.

Lemma model_command_without_tables_witness :
  ModelCommand.RunE (T:=Demo.template) (C:=Demo.collaborators) onlyEmptyFlags
    (mkState Demo.env0 [])
  = (mkState Demo.env0
             [EvPrint ModelCommand.helpText; EvPrint (modelSuccess "kept")],
     Ok tt).
Proof.
  apply (model_command_without_tables (T:=Demo.template)
           (C:=Demo.collaborators) onlyEmptyFlags (mkState Demo.env0 [])).
  vm_compute. repeat constructor.
Defined.

(** ** The two driver switches *)

Section DriverSwitches.
Context `{T : Template}.

Ltac decide_elem :=
  match goal with
  | |- ?x ∈ ?l =>
      apply (bool_decide_unpack (x ∈ l)); vm_compute; exact I
  | |- ?x ∉ ?l =>
      apply (bool_decide_eq_false_1 (x ∈ l)); vm_compute; reflexivity
  end.

(** Every entry of [l2] other than [userExample.go] is in [l1], decided
    entry by entry. *)
Lemma subset_but_userExample (l2 l1 : list string) :
  forallb (fun x => String.eqb x "userExample.go"
                    || bool_decide (x ∈ l1)) l2 = true ->
  forall x, x ∈ l2 -> x <> "userExample.go" -> x ∈ l1.
Proof.
  intros H x Hx Hne.
  induction Hx as [x l2|x y l2 _ IH]; cbn [forallb] in H;
    apply andb_true_iff in H as [Hy H]; [|exact (IH H Hne)].
  apply orb_true_iff in Hy as [Hy|Hy].
  - apply String.eqb_eq in Hy. contradiction.
  - apply bool_decide_eq_true in Hy. exact Hy.
Qed.

(** X6. The rpc pass and the gen-db-init pass accept the same drivers and
    treat the two init files alike. For a relational driver (mysql,
    postgresql, tidb, sqlite, in any ASCII case) both ignore [init.go.mgo]
    and do not ignore [init.go]; for mongodb both ignore [init.go] and do
    not ignore [init.go.mgo]; in both cases both ignore [init_test.go], and
    every file the gen-db-init pass ignores, [userExample.go] apart, the rpc
    pass ignores too. For any other driver both fail, each with its own
    message carrying the driver as it was typed. *)
Theorem driver_switches_agree (d : string) :
  let low := ToLower unicodeLower d in
  (low ∈ [DBDriverMysql; DBDriverPostgresql; DBDriverTidb; DBDriverSqlite] ->
   exists l1 l2,
     rpcGenerator.selectIgnoreFiles d = Ok l1 /\
     dbInitGenerator.selectIgnoreFiles d = Ok l2 /\
     "init.go.mgo" ∈ l1 /\ "init.go.mgo" ∈ l2 /\
     ("init.go" ∉ l1) /\ ("init.go" ∉ l2) /\
     "init_test.go" ∈ l1 /\ "init_test.go" ∈ l2 /\
     forall x, x ∈ l2 -> x <> "userExample.go" -> x ∈ l1) /\
  (low = DBDriverMongodb ->
   exists l1 l2,
     rpcGenerator.selectIgnoreFiles d = Ok l1 /\
     dbInitGenerator.selectIgnoreFiles d = Ok l2 /\
     "init.go" ∈ l1 /\ "init.go" ∈ l2 /\
     ("init.go.mgo" ∉ l1) /\ ("init.go.mgo" ∉ l2) /\
     "init_test.go" ∈ l1 /\ "init_test.go" ∈ l2 /\
     forall x, x ∈ l2 -> x <> "userExample.go" -> x ∈ l1) /\
  (unsupported d ->
   rpcGenerator.selectIgnoreFiles d = Err ("unsupported db driver: " +:+ d) /\
   dbInitGenerator.selectIgnoreFiles d
   = Err ("unsupported database driver: " +:+ d)).
Proof.
  cbv zeta. split; [|split].
  - intros Hin.
    assert (Hsql :
      String.eqb (ToLower unicodeLower d) DBDriverMysql
      || String.eqb (ToLower unicodeLower d) DBDriverPostgresql
      || String.eqb (ToLower unicodeLower d) DBDriverTidb
      || String.eqb (ToLower unicodeLower d) DBDriverSqlite = true).
    { repeat (apply elem_of_cons in Hin; destruct Hin as [->|Hin];
              [reflexivity|]).
      inversion Hin. }
    unfold rpcGenerator.selectIgnoreFiles, dbInitGenerator.selectIgnoreFiles.
    rewrite Hsql. eexists _, _.
    split; [reflexivity|]. split; [reflexivity|].
    repeat (split; [decide_elem|]).
    apply subset_but_userExample. vm_compute. reflexivity.
  - intros Hm.
    unfold rpcGenerator.selectIgnoreFiles, dbInitGenerator.selectIgnoreFiles.
    rewrite Hm. cbn -[rpcGenerator.ignoreFilesMongodb]. eexists _, _.
    split; [reflexivity|]. split; [reflexivity|].
    repeat (split; [decide_elem|]).
    apply subset_but_userExample. vm_compute. reflexivity.
  - intros Hu. split.
    + apply rpc_select_unsupported, Hu.
    + apply dbinit_select_unsupported, Hu.
Qed.

End DriverSwitches.

(** The drivers [MySQL] and [MongoDB], typed in mixed case, and the
    unsupported driver [oracle]. *)
Lemma driver_switches_agree_witness :
  (exists l1 l2,
     rpcGenerator.selectIgnoreFiles (T:=Demo.template) "MySQL" = Ok l1 /\
     dbInitGenerator.selectIgnoreFiles (T:=Demo.template) "MySQL" = Ok l2 /\
     "init.go.mgo" ∈ l1 /\ "init.go.mgo" ∈ l2 /\
     ("init.go" ∉ l1) /\ ("init.go" ∉ l2) /\
     "init_test.go" ∈ l1 /\ "init_test.go" ∈ l2 /\
     forall x, x ∈ l2 -> x <> "userExample.go" -> x ∈ l1) /\
  (exists l1 l2,
     rpcGenerator.selectIgnoreFiles (T:=Demo.template) "MongoDB" = Ok l1 /\
     dbInitGenerator.selectIgnoreFiles (T:=Demo.template) "MongoDB" = Ok l2 /\
     "init.go" ∈ l1 /\ "init.go" ∈ l2 /\
     ("init.go.mgo" ∉ l1) /\ ("init.go.mgo" ∉ l2) /\
     "init_test.go" ∈ l1 /\ "init_test.go" ∈ l2 /\
     forall x, x ∈ l2 -> x <> "userExample.go" -> x ∈ l1) /\
  rpcGenerator.selectIgnoreFiles (T:=Demo.template) "oracle"
  = Err "unsupported db driver: oracle" /\
  dbInitGenerator.selectIgnoreFiles (T:=Demo.template) "oracle"
  = Err "unsupported database driver: oracle".
Proof.
  split; [|split].
  - apply (proj1 (driver_switches_agree (T:=Demo.template) "MySQL")).
    apply (bool_decide_unpack _). vm_compute. exact I.
  - apply (proj1 (proj2 (driver_switches_agree (T:=Demo.template) "MongoDB"))).
    vm_compute. reflexivity.
  - apply (proj2 (proj2 (driver_switches_agree (T:=Demo.template) "oracle"))).
    apply (bool_decide_eq_false_1 _). vm_compute. reflexivity.
Defined.

(** ** The field lists of the model pass and of the rpc pass *)

Section FieldLists.
Context `{T : Template}.

(** X7. The rules of the model pass are, in the same order, among the rules
    of the rpc pass on the same codes and replacer: the rpc pass treats the
    model file as the model command does. *)
Theorem rpc_fields_extend_model_fields g r n o :
  modelGenerator.addFields (modelGenerator.mk (rpcGenerator.codes g) o) r
  `sublist_of` rpcGenerator.addFields g r n.
Proof.
  unfold modelGenerator.addFields, rpcGenerator.addFields,
    rpcGenerator.fieldsBefore, rpcGenerator.fieldsAfter. simpl.
  rewrite <- app_assoc. apply sublist_app; [reflexivity|].
  match goal with |- [?x; ?y] `sublist_of` _ =>
    change [x; y] with ([x] ++ [y]) end.
  apply sublist_app.
  - repeat apply sublist_inserts_l.
    repeat first [ apply sublist_skip | apply sublist_cons ].
    apply sublist_nil.
  - simpl. repeat first [ apply sublist_skip | apply sublist_cons ].
    apply sublist_nil.
Qed.

End FieldLists.

(** ** gen-db-init, end to end *)

Section DbInitRun.
Context `{T : Template} `{C : Collaborators}.

(** The switch fails only for an unsupported driver. *)
Lemma dbinit_select_failure d msg :
  dbInitGenerator.selectIgnoreFiles d = Err msg ->
  unsupported d /\ msg = "unsupported database driver: " +:+ d.
Proof.
  unfold dbInitGenerator.selectIgnoreFiles, unsupported.
  destruct (String.eqb (ToLower unicodeLower d) DBDriverMysql) eqn:E1;
    [discriminate|].
  destruct (String.eqb (ToLower unicodeLower d) DBDriverPostgresql) eqn:E2;
    [discriminate|].
  destruct (String.eqb (ToLower unicodeLower d) DBDriverTidb) eqn:E3;
    [discriminate|].
  destruct (String.eqb (ToLower unicodeLower d) DBDriverSqlite) eqn:E4;
    [discriminate|].
  destruct (String.eqb (ToLower unicodeLower d) DBDriverMongodb) eqn:E5;
    [discriminate|].
  cbn [orb]. intros [= <-]. split; [|reflexivity].
  apply String.eqb_neq in E1, E2, E3, E4, E5.
  intros H. repeat (apply elem_of_cons in H; destruct H as [H|H]; [congruence|]).
  inversion H.
Qed.

(** X8. Every run of gen-db-init makes at most one collaborator call, a
    [SaveFiles], and never under an empty module name. Either the run
    stops at once with the module-name error, when the output directory
    records no name and the flag is empty; or the module name is the
    recorded one if there is one, else the flag, it is not empty, and one of
    four things happens. With a non-empty [--out] and the target file found
    the run prints the already-exists message and returns without error,
    before the replacer or the driver is looked at. With no template
    replacer, and with a replacer but an unsupported driver, it returns that
    error and has done nothing. Otherwise it calls [SaveFiles] once, on a
    replacer confined to [internal/model] with the ignore list of the
    driver, whose rules rewrite the internal and configs import paths to
    that module name; it then returns the error of [SaveFiles], printing
    nothing, or prints the help text (only when [--out] is empty) and the
    success message for the output directory of the replacer. *)
Theorem gen_db_init_writes_once_under_a_module_name f e :
  let final := run (GenerateDBInitCommand.RunE f) e in
  let recorded :=
    fst (getNamesFromOutDir e (GenerateDBInitCommand.outPath f)) in
  let d := GenerateDBInitCommand.dbDriver f in
  let out := GenerateDBInitCommand.outPath f in
  let found := nonEmpty out && IsExists e GenerateDBInitCommand.targetFile in
  (recorded = EmptyString /\ GenerateDBInitCommand.moduleName f = EmptyString /\
   final = (mkState e [], Err GenerateDBInitCommand.moduleNameNotSet)) \/
  exists n,
    n <> EmptyString /\
    n = (if nonEmpty recorded then recorded
         else GenerateDBInitCommand.moduleName f) /\
    ((found = true /\
      final = (mkState e [EvPrint (GenerateDBInitCommand.alreadyExists
                                     GenerateDBInitCommand.targetFile)],
               Ok tt)) \/
     (found = false /\ Replacers e !! TplNameSponge = None /\
      final = (mkState e [], Err "replacer is nil")) \/
     (found = false /\ is_Some (Replacers e !! TplNameSponge) /\
      unsupported d /\
      final = (mkState e [], Err ("unsupported database driver: " +:+ d))) \/
     (found = false /\
      exists r,
        dbInitSetup n d r /\
        ((exists err,
             snd final = Err err /\
             log (fst final) = [EvSaveFiles r (Some err)]) \/
         (snd final = Ok tt /\
          log (fst final)
          = EvSaveFiles r None
            :: (if nonEmpty out then []
                else [EvPrint GenerateDBInitCommand.helpText])
            ++ [EvPrint (dbInitSuccess d (replacer.GetOutputDir r))])))).
Proof.
  intros final recorded d out found.
  assert (HB : final = run (GenerateDBInitCommand.RunE f) e) by reflexivity.
  clearbody final.
  unfold run, GenerateDBInitCommand.RunE, bind at 1, getEnv in HB.
  cbn [env] in HB.
  unfold GenerateDBInitCommand.resolveModuleName in HB.
  change (fst (getNamesFromOutDir e (GenerateDBInitCommand.outPath f)))
    with recorded in HB.
  destruct (nonEmpty recorded) eqn:Hrec.
  2: destruct (nonEmpty (GenerateDBInitCommand.moduleName f)) eqn:Hflag;
     cbn [negb] in HB.
  3: { left. destruct recorded; [|discriminate].
       destruct (GenerateDBInitCommand.moduleName f); [|discriminate].
       auto. }
  all: right; eexists; (split; [|split; [reflexivity|]]);
    [ intros E; first [rewrite E in Hrec | rewrite E in Hflag]; discriminate |].
  all: unfold GenerateDBInitCommand.generate, bind at 1, getEnv in HB;
    cbn [env] in HB; rewrite negb_involutive in HB;
    change (nonEmpty (GenerateDBInitCommand.outPath f)
            && IsExists e GenerateDBInitCommand.targetFile) with found in HB;
    destruct found eqn:Hfound; [left; split; [reflexivity|exact HB]|right].
  all: unfold bind at 1, dbInitGenerator.generateCode, bind at 1,
         lookupReplacer in HB; cbn [env] in HB;
    destruct (Replacers e !! TplNameSponge) as [r0|] eqn:Hr0;
    [right|left; auto].
  all: cbn [dbInitGenerator.dbDriver dbInitGenerator.moduleName
            dbInitGenerator.outPath] in HB;
    fold d in HB;
    destruct (dbInitGenerator.selectIgnoreFiles d) as [ign|msg] eqn:Hsel.
  all: try (left; split; [reflexivity|]; split; [eauto|];
            destruct (dbinit_select_failure _ _ Hsel) as [Hu ->];
            split; [exact Hu|exact HB]).
  all: right; split; [reflexivity|];
    unfold bind, getEnv, storeReplacer in HB; cbn [env log] in HB;
    match type of HB with
    | context [callSaveFiles ?r] => set (r1 := r) in *
    end;
    exists r1;
    (split;
     [ unfold dbInitSetup; subst r1; cbn;
       repeat (split; [first [reflexivity | exact Hsel]|]);
       unfold dbInitGenerator.addFields; cbn;
       split; apply elem_of_app; right;
       repeat (apply elem_of_cons; first [left; reflexivity | right]) |]);
    unfold callSaveFiles, ret in HB; cbn [env log] in HB;
    destruct (SaveFiles r1 _) as [e1 [err|]];
    [ left; exists err; subst final; split; reflexivity |].
  all: right; unfold dbInitSuccess; fold out in HB;
    destruct (nonEmpty out); cbn [negb] in HB;
    unfold Printf, emit, ret in HB; cbn [env log] in HB; subst final;
    split; reflexivity.
Qed.

End DbInitRun.

(** ** The mongodb driver, end to end *)

Lemma serviceGenerators_app l1 l2 :
  serviceGenerators (l1 ++ l2) = serviceGenerators l1 ++ serviceGenerators l2.
Proof.
  induction l1 as [|ev l1 IH]; simpl; [reflexivity|].
  destruct ev; simpl; rewrite ?IH; reflexivity.
Qed.

Section MongodbRun.
Context `{T : Template} `{C : Collaborators}.

Lemma rpc_pass_mongodb g st :
  rpcGenerator.dbDriver g = DBDriverMongodb ->
  rpcGenerator.isEmbed g = false ->
  exists new,
    saveFilesCalls (log (fst (rpcGenerator.generateCode g st)))
    = saveFilesCalls (log st) ++ new /\
    Forall mongodbReplacer new /\
    serviceGenerators (log (fst (rpcGenerator.generateCode g st)))
    = serviceGenerators (log st).
Proof.
  intros Hd He.
  assert (Hg : serviceGenerators (log (fst (rpcGenerator.generateCode g st)))
               = serviceGenerators (log st)).
  { destruct (rpc_pass_log g st) as [evs [Hl Hev]].
    rewrite Hl, serviceGenerators_app.
    destruct (snd (rpcGenerator.generateCode g st)); simpl in Hev.
    - destruct Hev as [r [-> _]]. simpl. apply app_nil_r.
    - destruct Hev as [->|[r ->]]; simpl; apply app_nil_r. }
  destruct (Replacers (env st) !! TplNameSponge) as [r0|] eqn:Hr.
  - destruct (rpc_pass_saveFiles g st r0 Hr rpcGenerator.ignoreFilesMongodb)
      as [r' [Hs [Hi [r1 Hf]]]]; [rewrite Hd; reflexivity|].
    exists [r']. split; [exact Hs|]. split; [|exact Hg].
    constructor; [|constructor]. split; [exact Hi|].
    rewrite Hf. unfold rpcGenerator.addFields.
    apply elem_of_app. left. unfold rpcGenerator.fieldsBefore.
    repeat (apply elem_of_app; right). rewrite He.
    repeat (apply elem_of_cons; first [left; reflexivity | right]).
  - exists []. rewrite app_nil_r. split; [|split; [constructor|exact Hg]].
    unfold rpcGenerator.generateCode. unfold_monad. rewrite Hr. reflexivity.
Qed.

Lemma primaryPass_mongodb f st :
  leavesDriverAndEmbed ->
  RPCCommand.dbDriver f = "mongodb" ->
  (exists new,
      saveFilesCalls (log (fst (RPCCommand.primaryPass f st)))
      = saveFilesCalls (log st) ++ new /\
      Forall mongodbReplacer new) /\
  serviceGenerators (log (fst (RPCCommand.primaryPass f st)))
  = serviceGenerators (log st) /\
  match snd (RPCCommand.primaryPass f st) with
  | Ok (_, a', _) => mongoOff a'
  | Err _ => True
  end.
Proof.
  intros Hkeep Hd.
  assert (Hp : mongoOff (primaryCallArgs f)).
  { unfold primaryCallArgs, mongoOff. simpl. rewrite Hd. simpl. auto. }
  destruct (RPCCommand.primaryPass f st) as [st2 res] eqn:HB. simpl.
  unfold RPCCommand.primaryPass in HB.
  destruct (convertProjectAndServerName _ _) as [pn sn].
  fold (primaryCallArgs f) in HB. unfold bind at 1, callGenerate in HB.
  destruct (Hkeep (primaryCallArgs f) (env st)) as [K1 K2].
  destruct (Generate (primaryCallArgs f) (env st)) as [[a1 e1] [codes|err]];
    cbn [fst] in K1, K2.
  - destruct Hp as [Hp1 Hp2]. rewrite Hp1 in K1. rewrite Hp2 in K2.
    unfold bind in HB. cbv beta iota zeta in HB.
    match type of HB with context [rpcGenerator.generateCode ?g ?s] =>
      pose proof (rpc_pass_mongodb g s K1 K2) as [new [Hs [Hm Hg]]];
      destruct (rpcGenerator.generateCode g s) as [st3 [o2|e]]
    end; injection HB as <- <-; simpl in Hs, Hg |- *;
      rewrite Hs, Hg, saveFilesCalls_app, serviceGenerators_app; simpl;
      rewrite !app_nil_r.
    + split; [eauto|]. split; [reflexivity|]. split; assumption.
    + split; [eauto|]. split; [reflexivity|exact I].
  - injection HB as <- <-. simpl.
    rewrite saveFilesCalls_app, serviceGenerators_app. simpl.
    rewrite !app_nil_r. split; [exists []; rewrite app_nil_r|]; auto.
Qed.

Lemma serviceLoop_mongodb m sn ts :
  leavesDriverAndEmbed ->
  forall a o st,
    mongoOff a ->
    saveFilesCalls (log (fst (RPCCommand.serviceLoop m sn ts a o st)))
    = saveFilesCalls (log st) /\
    exists new,
      serviceGenerators (log (fst (RPCCommand.serviceLoop m sn ts a o st)))
      = serviceGenerators (log st) ++ new /\
      Forall mongodbGenerator new.
Proof.
  intros Hkeep. induction ts as [|t ts IH]; intros a o st Ha.
  - simpl. split; [reflexivity|]. exists []. rewrite app_nil_r.
    split; [reflexivity|constructor].
  - simpl. destruct (nonEmpty t); simpl; [|apply IH, Ha].
    unfold bind.
    destruct (RPCCommand.serviceBody m sn t a o st) as [st2 res] eqn:HB.
    unfold RPCCommand.serviceBody in HB. unfold_monad.
    destruct (Hkeep (setDBTable t a) (env st)) as [K1 K2].
    destruct (Generate (setDBTable t a) (env st)) as [[a1 e1] [codes|err]];
      simpl in HB, K1, K2.
    + assert (Ha1 : mongoOff a1).
      { destruct Ha as [Ha1 Ha2]. split; simpl in *; congruence. }
      match type of HB with context [serviceGenerateCode ?sg ?e] =>
        destruct (serviceGenerateCode sg e) as [e2 [p|err]] end;
        injection HB as <- <-; simpl.
      * destruct (IH a1 p
                    (mkState e2
                       ((log st ++ [EvGenerate (setDBTable t a) (Ok codes)])
                        ++ [EvServicePass
                              (serviceGenerator.mk m sn (DBDriver a1)
                                 (IsEmbed a1) codes o) (Ok p)])) Ha1)
          as [Hs [new [Hg Hm]]].
        rewrite Hs, Hg. simpl.
        rewrite !saveFilesCalls_app, !serviceGenerators_app. simpl.
        rewrite !app_nil_r. split; [reflexivity|].
        eexists (_ :: new). rewrite <- app_assoc. split; [reflexivity|].
        constructor; [exact Ha1|exact Hm].
      * rewrite !saveFilesCalls_app, !serviceGenerators_app. simpl.
        rewrite !app_nil_r. split; [reflexivity|].
        eexists [_]. split; [reflexivity|].
        constructor; [exact Ha1|constructor].
    + injection HB as <- <-. simpl.
      rewrite saveFilesCalls_app, serviceGenerators_app. simpl.
      rewrite !app_nil_r. split; [reflexivity|]. exists [].
      rewrite app_nil_r. split; [reflexivity|constructor].
Qed.

(** X5. Under [--db-driver=mongodb], whatever the [--embed] flag, every
    [SaveFiles] of an rpc run is called on a replacer with the mongodb file
    set and the embed code of a structure that is not embedded, and every
    secondary pass is handed the driver [mongodb] and [isEmbed = false],
    provided the schema-to-code collaborator leaves the driver and embed
    fields of its arguments as they are. *)
Theorem mongodb_run_is_not_embedded :
  leavesDriverAndEmbed ->
  forall f e,
    RPCCommand.dbDriver f = "mongodb" ->
    Forall mongodbReplacer
      (saveFilesCalls (log (fst (run (RPCCommand.RunE f) e)))) /\
    Forall mongodbGenerator
      (serviceGenerators (log (fst (run (RPCCommand.RunE f) e)))).
Proof.
  intros Hkeep f e Hd. unfold run. rewrite RPCCommand_RunE_stages.
  destruct (primaryPass_mongodb f (mkState e []) Hkeep Hd)
    as [[new [Hs Hm]] [Hg Ha]].
  destruct (RPCCommand.primaryPass f _) as [st1 [[[sn a1] o1]|err]];
    simpl in *.
  - destruct (serviceLoop_mongodb (RPCCommand.moduleName f) sn
                (snd (RPCCommand.splitTables (SplitComma (RPCCommand.dbTables f))))
                Hkeep a1 o1 st1 Ha) as [Hs2 [new2 [Hg2 Hm2]]].
    destruct (RPCCommand.serviceLoop _ _ _ _ _ st1) as [st2 [[a2 o2]|err]];
      simpl in *;
      rewrite ?saveFilesCalls_app, ?serviceGenerators_app; simpl;
      rewrite ?app_nil_r, Hs2, Hs, Hg2, Hg; simpl; auto.
  - rewrite Hs, Hg. simpl. split; [exact Hm|constructor].
Qed.

End MongodbRun.

(** The rpc run for two tables under [--db-driver=mongodb --embed=true]. *)
Lemma mongodb_run_is_not_embedded_witness :
  let l := log (fst (run (RPCCommand.RunE (T:=Demo.template)
                            (C:=Demo.collaborators) mongoRPCFlags)
                         Demo.env0)) in
  Forall (mongodbReplacer (H:=Demo.template)) (saveFilesCalls l) /\
  Forall mongodbGenerator (serviceGenerators l) /\
  length (saveFilesCalls l) = 1 /\ length (serviceGenerators l) = 1.
Proof.
  cbv zeta.
  destruct (mongodb_run_is_not_embedded (T:=Demo.template)
              (C:=Demo.collaborators) demo_leavesDriverAndEmbed
              mongoRPCFlags Demo.env0 eq_refl) as [H1 H2].
  split; [exact H1|]. split; [exact H2|]. vm_compute. split; reflexivity.
Defined.
